(** * Billing core of the LLM gateway (services/billing)

    A shallow embedding of the billing services: Python's [decimal]
    arithmetic with its default 28-digit context; the pricing lookup and
    cost computation of [server.py]; the Redis-backed ledger operations
    (Charge, Reserve, Commit, GetBalance, AdjustBalance) of
    [billing_core.py] in a state and error monad whose Redis calls may
    fail; the exchange-rate manager of [exchange_service.py]; the
    [MonitoringSystem]; and the [BillingService] of [server.py], which runs
    the same ledger bodies against its own pricing table and exchange
    manager and calls the monitoring system in the middle of them. *)

From Stdlib Require Import ZArith Lia QArith Qround Qpower Ascii String.
From stdpp Require Import base gmap strings list pretty.

(* ================================================================== *)
(** ** Python [decimal.Decimal] under the default context             *)
(* ================================================================== *)

Module PyDecimal.
Local Open Scope Z_scope.

(** A finite decimal [coef * 10 ^ dexp]. *)
Record dec := Dec { coef : Z; dexp : Z }.

(** [getcontext().prec] *)
Definition PREC : Z := 28.

(** Number of trailing digits to drop so that [a] fits in [PREC] digits. *)
Fixpoint drop_count (fuel : nat) (a : Z) : Z :=
  match fuel with
  | O => 0
  | S f => if a <? 10 ^ PREC then 0 else 1 + drop_count f (a / 10)
  end.

Definition excess_digits (a : Z) : Z := drop_count (Z.to_nat (Z.log2 a + 1)) a.

(** [a / D] rounded with ROUND_HALF_EVEN (the context's rounding). *)
Definition div_half_even (a D : Z) : Z :=
  let q := a / D in
  let r := a mod D in
  if D <? 2 * r then q + 1
  else if 2 * r <? D then q
  else if Z.even q then q else q + 1.

(** [a / D] rounded with ROUND_HALF_UP. *)
Definition div_half_up (a D : Z) : Z :=
  a / D + (if D <=? 2 * (a mod D) then 1 else 0).

(** [Decimal._fix]: round a result to the context precision. *)
Definition context_round (x : dec) : dec :=
  let a := Z.abs (coef x) in
  if a <? 10 ^ PREC then x
  else
    let d := excess_digits a in
    let q := div_half_even a (10 ^ d) in
    if q =? 10 ^ PREC then Dec (Z.sgn (coef x) * (q / 10)) (dexp x + d + 1)
    else Dec (Z.sgn (coef x) * q) (dexp x + d).

(** The coefficient of [x] at exponent [m <= dexp x]. *)
Definition scaled (x : dec) (m : Z) : Z := coef x * 10 ^ (dexp x - m).

Definition of_int (n : Z) : dec := Dec n 0.

Definition neg (x : dec) : dec := Dec (- coef x) (dexp x).

(** [x + y], [x - y], [x * y]: exact result, then [_fix]. *)
Definition add (x y : dec) : dec :=
  let m := Z.min (dexp x) (dexp y) in
  context_round (Dec (scaled x m + scaled y m) m).

Definition sub (x y : dec) : dec := add x (neg y).

Definition mul (x y : dec) : dec :=
  context_round (Dec (coef x * coef y) (dexp x + dexp y)).

(** [x / 1_000_000]: the exact quotient, then [_fix]. *)
Definition div_million (x : dec) : dec := context_round (Dec (coef x) (dexp x - 6)).

(** Comparisons are by value. *)
Definition compare (x y : dec) : comparison :=
  let m := Z.min (dexp x) (dexp y) in Z.compare (scaled x m) (scaled y m).

Definition ltb (x y : dec) : bool :=
  match compare x y with Lt => true | _ => false end.
Definition leb (x y : dec) : bool :=
  match compare x y with Gt => false | _ => true end.
Definition eqb (x y : dec) : bool :=
  match compare x y with Eq => true | _ => false end.

Definition zero : dec := Dec 0 0.

(** [x.quantize(Decimal('0.00001'), ROUND_HALF_UP)]; [None] is the
    InvalidOperation raised when the coefficient exceeds [PREC] digits. *)
Definition quantize_5 (x : dec) : option dec :=
  let c :=
    if -5 <=? dexp x then coef x * 10 ^ (dexp x + 5)
    else Z.sgn (coef x) * div_half_up (Z.abs (coef x)) (10 ^ (-5 - dexp x)) in
  if Z.abs c <? 10 ^ PREC then Some (Dec c (-5)) else None.

(** The exact value of a decimal. *)
Definition to_Q (x : dec) : Q := (inject_Z (coef x) * (10 # 1) ^ dexp x)%Q.

End PyDecimal.

Import PyDecimal.

(* ================================================================== *)
(** ** Errors raised by the service                                   *)
(* ================================================================== *)

(** The exception classes of [server.py]; [InternalError] stands for any
    other exception (a Redis error, a RuntimeError, ...), which the
    error decorator turns into an INTERNAL abort. *)
Inductive err :=
  | AuthenticationError
  | ValidationError
  | BalanceError
  | PricingError
  | ReservationError
  | ExternalServiceError
  | InternalError.

Inductive result (A : Type) :=
  | Ok (a : A)
  | Err (e : err).
Arguments Ok {A} a.
Arguments Err {A} e.

(* ================================================================== *)
(** ** Pricing: [PricingManager] and [BillingService.calculate_cost]   *)
(* ================================================================== *)

Module Pricing.
Local Open Scope Z_scope.

(** One entry of [self.pricing]: the keys a model may carry; each price
    is the decimal [Decimal(str(value))] reads. *)
Record model_pricing := MP {
  chat_input : option dec;
  chat_output : option dec;
  embed : option dec }.

Definition no_prices : model_pricing := MP None None None.

(** [self.pricing]: model id -> prices per 1,000,000 tokens. *)
Definition pricing_table := gmap string model_pricing.

(** [DEFAULT_PRICING] (a float [x] is read as [Decimal(str(x))]). *)
Definition DEFAULT_PRICING : pricing_table :=
  list_to_map [
    ("gpt-4o", MP (Some (Dec 50 (-1))) (Some (Dec 150 (-1))) (Some (Dec 1 (-1))));
    ("gpt-4-turbo", MP (Some (Dec 100 (-1))) (Some (Dec 300 (-1))) (Some (Dec 13 (-2))));
    ("claude-3-opus", MP (Some (Dec 150 (-1))) (Some (Dec 750 (-1))) None);
    ("llama3-70b", MP (Some (Dec 2 (-1))) (Some (Dec 6 (-1))) None);
    ("text-embedding-3-large", MP None None (Some (Dec 13 (-2))));
    ("voyage-2", MP None None (Some (Dec 1 (-1))));
    ("cohere-embed-v3", MP None None (Some (Dec 2 (-1))))].

(** The dictionary [get_price] returns. *)
Inductive prices :=
  | ChatPrices (input output : dec)
  | EmbedPrices (embed : dec).

(** [PricingManager.get_price]: [self.pricing.get(model, {})], then the
    per-endpoint keys with the defaults [10.00], [30.00] and [0.13]. *)
Definition get_price (pricing : pricing_table) (model endpoint : string)
    : result prices :=
  let model_pricing := default no_prices (pricing !! model) in
  if String.eqb endpoint "chat" then
    Ok (ChatPrices
          (div_million (default (Dec 100 (-1)) (chat_input model_pricing)))
          (div_million (default (Dec 300 (-1)) (chat_output model_pricing))))
  else if String.eqb endpoint "embed" then
    Ok (EmbedPrices (div_million (default (Dec 13 (-2)) (embed model_pricing))))
  else Err PricingError.

(** The body of [BillingService.calculate_cost]: every exception inside
    it becomes a [PricingError]. *)
Definition calculate_cost_body (pricing : pricing_table) (model endpoint : string)
    (input_t output_t : Z) : result dec :=
  match get_price pricing model endpoint with
  | Err _ => Err PricingError
  | Ok p =>
      let total :=
        if String.eqb endpoint "chat" then
          match p with
          | ChatPrices input_cost output_cost =>
              Some (add (mul (of_int input_t) input_cost) (mul (of_int output_t) output_cost))
          | EmbedPrices _ => None
          end
        else if String.eqb endpoint "embed" then
          match p with
          | EmbedPrices embed_cost => Some (mul (of_int input_t) embed_cost)
          | ChatPrices _ _ => None
          end
        else None in
      match total with
      | None => Err PricingError
      | Some t =>
          match quantize_5 t with
          | Some c => Ok c
          | None => Err PricingError
          end
      end
  end.

(** [calculate_cost] is itself wrapped in [handle_billing_errors]. Its
    second argument is the model string, which has no
    [abort_with_status], so the decorator takes the HTTP branch and calls
    Flask's [jsonify] outside an application context, which raises a
    RuntimeError: a failure inside [calculate_cost] reaches the caller as
    a generic exception. *)
Definition calculate_cost (pricing : pricing_table) (model endpoint : string)
    (input_t output_t : Z) : result dec :=
  match calculate_cost_body pricing model endpoint input_t output_t with
  | Ok c => Ok c
  | Err _ => Err InternalError
  end.

End Pricing.

Import Pricing.

(* ================================================================== *)
(** ** The cost formula as the pricing section states it               *)
(* ================================================================== *)

Module CostSpec.
Local Open Scope Q_scope.

(** Half-up rounding of a rational to an integer (ties away from 0). *)
Definition round_half_up (q : Q) : Z :=
  if Qle_bool 0 q then Qfloor (q + (1 # 2)) else (- Qfloor (- q + (1 # 2)))%Z.

(** The coefficient, at exponent -5, of [q] quantized half-up to 10^-5. *)
Definition quantize_5_spec (q : Q) : Z := round_half_up (q * inject_Z 100000).

(** [chat]: (input_tokens * chat_input_per_m + output_tokens * chat_output_per_m) / 1_000_000. *)
Definition chat_cost_exact (p_in p_out : Q) (input_tokens output_tokens : Z) : Q :=
  (inject_Z input_tokens * p_in + inject_Z output_tokens * p_out) / inject_Z 1000000.

(** [embed]: input_tokens * embed_per_m / 1_000_000. *)
Definition embed_cost_exact (p_embed : Q) (input_tokens : Z) : Q :=
  inject_Z input_tokens * p_embed / inject_Z 1000000.

End CostSpec.

(* ================================================================== *)
(** ** Input validators                                                *)
(* ================================================================== *)

Module Validators.
Local Open Scope nat_scope.

Definition in_range (c : Ascii.ascii) (lo hi : nat) : bool :=
  let n := Ascii.nat_of_ascii c in (lo <=? n) && (n <=? hi).

Definition is_digit (c : Ascii.ascii) : bool := in_range c 48 57.

(** [[a-zA-Z0-9_\-]] *)
Definition is_id_char (c : Ascii.ascii) : bool :=
  is_digit c || in_range c 65 90 || in_range c 97 122
  || Ascii.eqb c "_"%char || Ascii.eqb c "-"%char.

(** [[a-zA-Z0-9_\-\.]] *)
Definition is_model_char (c : Ascii.ascii) : bool :=
  is_id_char c || Ascii.eqb c "."%char.

(** [C{lo,hi}] on a whole segment. *)
Definition class_run (p : Ascii.ascii -> bool) (lo hi : nat) (l : list Ascii.ascii) : bool :=
  forallb p l && (lo <=? length l) && (length l <=? hi).

Definition newline : Ascii.ascii := Ascii.ascii_of_nat 10.

(** [re.match] of [^core$]: without MULTILINE, [$] also matches just
    before a final newline. *)
Definition full_match (core : list Ascii.ascii -> bool) (s : string) : bool :=
  let l := String.list_ascii_of_string s in
  core l ||
  match last l with
  | Some c => Ascii.eqb c newline && core (removelast l)
  | None => false
  end.

(** Split on [':']. *)
Fixpoint split_colon (l : list Ascii.ascii) : list (list Ascii.ascii) :=
  match l with
  | [] => [[]]
  | c :: rest =>
      match split_colon rest with
      | seg :: segs =>
          if Ascii.eqb c ":"%char then [] :: seg :: segs else (c :: seg) :: segs
      | [] => [[c]]
      end
  end.

Fixpoint strip_prefix (p l : list Ascii.ascii) : option (list Ascii.ascii) :=
  match p, l with
  | [], _ => Some l
  | c :: p', d :: l' => if Ascii.eqb c d then strip_prefix p' l' else None
  | _ :: _, [] => None
  end.

(** [USER_ID_PATTERN = ^[a-zA-Z0-9_\-]{3,64}$] *)
Definition user_id_ok (s : string) : bool := full_match (class_run is_id_char 3 64) s.

(** [MODEL_ID_PATTERN = ^[a-zA-Z0-9_\-\.]{2,64}$] *)
Definition model_id_ok (s : string) : bool := full_match (class_run is_model_char 2 64) s.

(** [RESERVATION_ID_PATTERN = ^res:[a-zA-Z0-9_\-]{3,64}:[a-zA-Z0-9_\-]{3,64}:\d+$];
    no class admits [':'], so the three segments are the [':']-separated
    pieces after the prefix. *)
Definition reservation_core (l : list Ascii.ascii) : bool :=
  match strip_prefix (String.list_ascii_of_string "res:") l with
  | Some rest =>
      match split_colon rest with
      | [a; b; d] =>
          class_run is_id_char 3 64 a && class_run is_id_char 3 64 b
          && forallb is_digit d && (1 <=? length d)
      | _ => false
      end
  | None => false
  end.

Definition reservation_id_ok (s : string) : bool := full_match reservation_core s.

(** [validate_amount]: [0 < amount < 1000000]. *)
Definition amount_ok (amount : dec) : bool :=
  PyDecimal.ltb PyDecimal.zero amount && PyDecimal.ltb amount (Dec 1000000 0).

End Validators.

(* ================================================================== *)
(** ** The Redis ledger and [BillingService] of [billing_core.py]     *)
(* ================================================================== *)

Module Ledger.
Import Validators.
Local Open Scope Z_scope.

Inductive status := Reserved | Committed.

(** The hash [reservation:<id>] with its expiry ([None]: no TTL). *)
Record reservation := Resv {
  r_user_id : string;
  r_model : string;
  r_endpoint : string;
  r_input_tokens : Z;
  r_output_tokens : Z;
  r_estimated_cost : dec;
  r_status : status;
  r_created_at : Z;
  r_actual_cost : option dec;
  r_input_tokens_actual : option Z;
  r_output_tokens_actual : option Z;
  r_expires_at : option Z }.

(** An entry of the [billing:log] stream. *)
Record tx_entry := Tx {
  tx_user_id : string;
  tx_model : string;
  tx_endpoint : option string;
  tx_input_tokens : option Z;
  tx_output_tokens : option Z;
  tx_tokens_used : option Z;
  tx_cost_usd : dec;
  tx_balance_usd : dec;
  tx_reservation_id : option string;
  tx_timestamp : Z }.

(** An entry of the [billing:adjustments] stream. *)
Record adj_entry := Adj {
  adj_user_id : string;
  adj_amount_usd : dec;
  adj_reason : string;
  adj_timestamp : Z }.

(** The Redis keys the service touches, the process-wide pricing and
    exchange tables, the clock ([time.time()] and the date of
    [datetime.now()]), the [uuid4] supply, the tokens [jwt.decode]
    accepts, the client's [decode_responses] option (part of
    [REDIS_URL]; redis-py's default [False] makes every read return
    bytes), [Decimal(str(float(x)))] for a cost stored with [float()],
    and the failure stream: the n-th Redis call raises iff the n-th
    element is [true] (an exhausted stream never fails). *)
Record world := World {
  balances : gmap string dec;
  reservations : gmap string reservation;
  billing_log : list tx_entry;
  adjustments : list adj_entry;
  usage : gmap (string * string) Z;
  pricing : pricing_table;
  rates : gmap string dec;
  now : Z;
  today : string;
  uuids : list string;
  jwt_ok : string -> bool;
  decode_responses : bool;
  float_str : dec -> dec;
  faults : list bool }.

Definition set_balances (w : world) v :=
  World v (reservations w) (billing_log w) (adjustments w) (usage w) (pricing w) (rates w) (now w) (today w) (uuids w) (jwt_ok w) (decode_responses w) (float_str w) (faults w).
Definition set_reservations (w : world) v :=
  World (balances w) v (billing_log w) (adjustments w) (usage w) (pricing w) (rates w) (now w) (today w) (uuids w) (jwt_ok w) (decode_responses w) (float_str w) (faults w).
Definition set_billing_log (w : world) v :=
  World (balances w) (reservations w) v (adjustments w) (usage w) (pricing w) (rates w) (now w) (today w) (uuids w) (jwt_ok w) (decode_responses w) (float_str w) (faults w).
Definition set_adjustments (w : world) v :=
  World (balances w) (reservations w) (billing_log w) v (usage w) (pricing w) (rates w) (now w) (today w) (uuids w) (jwt_ok w) (decode_responses w) (float_str w) (faults w).
Definition set_usage (w : world) v :=
  World (balances w) (reservations w) (billing_log w) (adjustments w) v (pricing w) (rates w) (now w) (today w) (uuids w) (jwt_ok w) (decode_responses w) (float_str w) (faults w).
Definition set_now (w : world) v :=
  World (balances w) (reservations w) (billing_log w) (adjustments w) (usage w) (pricing w) (rates w) v (today w) (uuids w) (jwt_ok w) (decode_responses w) (float_str w) (faults w).
Definition set_uuids (w : world) v :=
  World (balances w) (reservations w) (billing_log w) (adjustments w) (usage w) (pricing w) (rates w) (now w) (today w) v (jwt_ok w) (decode_responses w) (float_str w) (faults w).
Definition set_faults (w : world) v :=
  World (balances w) (reservations w) (billing_log w) (adjustments w) (usage w) (pricing w) (rates w) (now w) (today w) (uuids w) (jwt_ok w) (decode_responses w) (float_str w) v.

(** State and exception monad: effects before an exception persist. *)
Definition M (A : Type) := world -> result A * world.

Definition ret {A} (a : A) : M A := fun w => (Ok a, w).
Definition raise {A} (e : err) : M A := fun w => (Err e, w).
Definition bind {A B} (m : M A) (k : A -> M B) : M B :=
  fun w => match m w with
           | (Ok a, w') => k a w'
           | (Err e, w') => (Err e, w')
           end.

Notation "'let!' x := m 'in' k" := (bind m (fun x => k))
  (at level 200, x name, m at level 100, k at level 200).
Notation "m ;; k" := (bind m (fun _ => k)) (at level 100, right associativity).

(** [try: m except Exception: raise e] *)
Definition reraise_as {A} (e : err) (m : M A) : M A :=
  fun w => match m w with
           | (Ok a, w') => (Ok a, w')
           | (Err _, w') => (Err e, w')
           end.

Definition check (b : bool) (e : err) : M unit := if b then ret tt else raise e.

(** One round trip to Redis: it raises when the failure stream says so. *)
Definition redis_call : M unit :=
  fun w => match faults w with
           | true :: fs => (Err InternalError, set_faults w fs)
           | false :: fs => (Ok tt, set_faults w fs)
           | [] => (Ok tt, w)
           end.

(** Redis drops a key once the clock has passed its expiry time. *)
Definition alive (w : world) (r : reservation) : bool :=
  match r_expires_at r with Some t => now w <=? t | None => true end.

Definition lookup_reservation (w : world) (key : string) : option reservation :=
  match reservations w !! key with
  | Some r => if alive w r then Some r else None
  | None => None
  end.

(** [Decimal(r.get(key) or "0")] on a balance key, before the default:
    a stored value read as bytes makes [Decimal] raise [TypeError]. *)
Definition r_get (key : string) : M (option dec) :=
  redis_call ;;
  (fun w => match balances w !! key with
            | None => (Ok None, w)
            | Some v => if decode_responses w then (Ok (Some v), w) else (Err InternalError, w)
            end).

(** [r.set(key, str(v))] *)
Definition r_set (key : string) (v : dec) : M unit :=
  redis_call ;; (fun w => (Ok tt, set_balances w (<[key := v]> (balances w)))).

(** [r.hgetall(key)]: an expired key reads as the empty hash. *)
Definition r_hgetall (key : string) : M (option reservation) :=
  redis_call ;; (fun w => (Ok (lookup_reservation w key), w)).

(** [r.hset(key, field, value)] on an existing hash. *)
Definition r_hupdate (key : string) (f : reservation -> reservation) : M unit :=
  redis_call ;;
  (fun w => match lookup_reservation w key with
            | Some r => (Ok tt, set_reservations w (<[key := f r]> (reservations w)))
            | None => (Ok tt, w)
            end).

(** [r.hmset(key, data)]: sets the listed fields; an existing hash keeps
    its other fields and its TTL, a new one has no TTL. *)
Definition r_hmset (key : string) (data : reservation) : M unit :=
  redis_call ;;
  (fun w =>
     let r' := match lookup_reservation w key with
               | Some old =>
                   Resv (r_user_id data) (r_model data) (r_endpoint data)
                     (r_input_tokens data) (r_output_tokens data) (r_estimated_cost data)
                     (r_status data) (r_created_at data) (r_actual_cost old)
                     (r_input_tokens_actual old) (r_output_tokens_actual old)
                     (r_expires_at old)
               | None => data
               end in
     (Ok tt, set_reservations w (<[key := r']> (reservations w)))).

Definition with_expiry (t : option Z) (r : reservation) : reservation :=
  Resv (r_user_id r) (r_model r) (r_endpoint r) (r_input_tokens r) (r_output_tokens r)
    (r_estimated_cost r) (r_status r) (r_created_at r) (r_actual_cost r)
    (r_input_tokens_actual r) (r_output_tokens_actual r) t.

(** [r.expire(key, ttl)] *)
Definition r_expire (key : string) (ttl : Z) : M unit :=
  fun w => r_hupdate key (with_expiry (Some (now w + ttl))) w.

(** [r.xadd("billing:log", tx)] *)
Definition r_xadd_log (tx : tx_entry) : M unit :=
  redis_call ;; (fun w => (Ok tt, set_billing_log w (billing_log w ++ [tx]))).

(** [r.xadd("billing:adjustments", entry)] *)
Definition r_xadd_adjustment (a : adj_entry) : M unit :=
  redis_call ;; (fun w => (Ok tt, set_adjustments w (adjustments w ++ [a]))).

(** [r.hincrby(key, field, delta)] *)
Definition r_hincrby (key field : string) (delta : Z) : M unit :=
  redis_call ;;
  (fun w => (Ok tt, set_usage w (<[(key, field) := default 0 (usage w !! (key, field)) + delta]>
                                   (usage w)))).

Definition get_now : M Z := fun w => (Ok (now w), w).
Definition get_today : M string := fun w => (Ok (today w), w).
Definition get_pricing : M pricing_table := fun w => (Ok (pricing w), w).
Definition get_decode_responses : M bool := fun w => (Ok (decode_responses w), w).
Definition get_float_str : M (dec -> dec) := fun w => (Ok (float_str w), w).

(** [str(uuid.uuid4())] *)
Definition uuid4 : M string :=
  fun w => match uuids w with
           | u :: us => (Ok u, set_uuids w us)
           | [] => (Ok "00000000-0000-4000-8000-000000000000", w)
           end.

(** The gRPC context: its invocation metadata. *)
Record context := Ctx { metadata : list (string * string) }.

Fixpoint find_authorization (md : list (string * string)) : option string :=
  match md with
  | [] => None
  | (k, v) :: rest => if String.eqb k "authorization" then Some v else find_authorization rest
  end.

(** The authentication prologue of Charge, Reserve and Commit, with
    [validate_jwt]. *)
Definition authenticate (ctx : context) : M unit :=
  fun w =>
    match find_authorization (metadata ctx) with
    | None => (Err AuthenticationError, w)
    | Some t =>
        if String.eqb t "" then (Err AuthenticationError, w)
        else if jwt_ok w t then (Ok tt, w) else (Err AuthenticationError, w)
    end.

(** Python's [s or default] on strings. *)
Definition or_default (s d : string) : string := if String.eqb s "" then d else s.

Definition balance_key (user_id : string) : string := "balance:" +:+ user_id.
Definition reservation_key (reservation_id : string) : string := "reservation:" +:+ reservation_id.

(** [r.expire(reservation_key, 86400)] in Commit. *)
Definition COMMITTED_TTL : Z := 86400.

Record charge_request := ChargeReq {
  ch_user_id : string; ch_model : string; ch_tokens_used : Z; ch_cost : dec }.

Record reserve_request := ReserveReq {
  rv_user_id : string; rv_request_id : string; rv_model : string; rv_endpoint : string;
  rv_input_tokens_estimate : Z; rv_output_tokens_estimate : Z }.

Record commit_request := CommitReq {
  cm_reservation_id : string; cm_input_tokens_actual : Z; cm_output_tokens_actual : Z }.

Record balance_request := BalanceReq { gb_user_id : string }.

Record adjust_request := AdjustReq {
  ad_user_id : string; ad_amount_usd : dec; ad_reason : string }.

(** The bodies below are those of [BillingService] in [billing_core.py].
    [Err e] is the exception the body raises. [handle_billing_errors]
    finds no [abort_with_status] on [args[1]] (the request) and takes its
    HTTP branch, where [jsonify] is not defined in [billing_core.py]: every
    exception ends the call as a failure (a NameError).

    [BillingService.calculate_cost]: [pricing_stub] is not defined in
    [billing_core.py], so [pricing_stub.GetPricing(...)] raises NameError,
    which the inner [except Exception] turns into [PricingError]; the
    method's own [handle_billing_errors] (whose [args[1]] is the model
    name) then raises NameError on [jsonify]. The result does not depend
    on the arguments. *)
Definition calculate_cost_body (model endpoint : string) (input_t output_t : Z) : result dec :=
  Err PricingError.

Definition calculate_cost (model endpoint : string) (input_t output_t : Z) : result dec :=
  match calculate_cost_body model endpoint input_t output_t with
  | Ok c => Ok c
  | Err _ => Err InternalError
  end.

(** [BillingService.Charge]; returns [float(new_balance)]. *)
Definition Charge (ctx : context) (request : charge_request) : M dec :=
  authenticate ctx ;;
  let user_id := or_default (ch_user_id request) "anonymous" in
  let model := ch_model request in
  let tokens_used := ch_tokens_used request in
  let cost := ch_cost request in
  check (user_id_ok user_id) ValidationError ;;
  check (model_id_ok model) ValidationError ;;
  check (negb (tokens_used <=? 0)) ValidationError ;;
  check (negb (PyDecimal.leb cost PyDecimal.zero)) ValidationError ;;
  let! stored := r_get (balance_key user_id) in
  let balance := default PyDecimal.zero stored in
  check (negb (PyDecimal.ltb balance cost)) BalanceError ;;
  let new_balance := PyDecimal.sub balance cost in
  r_set (balance_key user_id) new_balance ;;
  let! t := get_now in
  let! float := get_float_str in
  r_xadd_log (Tx user_id model None None None (Some tokens_used) (float cost) (float new_balance)
                None t) ;;
  r_hincrby ("usage:" +:+ user_id +:+ ":model:" +:+ model) "direct" tokens_used ;;
  let! d := get_today in
  r_hincrby ("usage:daily:" +:+ d) model tokens_used ;;
  ret (float new_balance).

(** Reserve's [try] block: [hmset], then [r.expire(reservation_key,
    RESERVATION_TTL)], whose argument is a NameError ([RESERVATION_TTL] is
    not defined in [billing_core.py]); any failure becomes
    [ReservationError]. *)
Definition store_reservation (key : string) (data : reservation) : M unit :=
  reraise_as ReservationError (r_hmset key data ;; raise InternalError).

(** [BillingService.Reserve]; returns [(reservation_id,
    float(estimated_cost), float(new_balance))]. *)
Definition Reserve (ctx : context) (request : reserve_request) : M (string * dec * dec) :=
  authenticate ctx ;;
  let user_id := or_default (rv_user_id request) "anonymous" in
  let! request_id :=
    (if String.eqb (rv_request_id request) "" then uuid4 else ret (rv_request_id request)) in
  let model := rv_model request in
  let endpoint := rv_endpoint request in
  let input_tokens := rv_input_tokens_estimate request in
  let output_tokens := rv_output_tokens_estimate request in
  check (user_id_ok user_id) ValidationError ;;
  check (model_id_ok model) ValidationError ;;
  check (negb ((input_tokens <=? 0) || (output_tokens <? 0))) ValidationError ;;
  match calculate_cost model endpoint input_tokens output_tokens with
  | Err e => raise e
  | Ok estimated_cost =>
      check (negb (PyDecimal.leb estimated_cost PyDecimal.zero)) PricingError ;;
      let! stored := r_get (balance_key user_id) in
      let balance := default PyDecimal.zero stored in
      check (negb (PyDecimal.ltb balance estimated_cost)) BalanceError ;;
      let! t := get_now in
      let! float := get_float_str in
      let reservation_id := "res:" +:+ user_id +:+ ":" +:+ request_id +:+ ":" +:+ pretty t in
      let reservation_data :=
        Resv user_id model endpoint input_tokens output_tokens (float estimated_cost) Reserved t
          None None None None in
      store_reservation (reservation_key reservation_id) reservation_data ;;
      let new_balance := PyDecimal.sub balance estimated_cost in
      r_set (balance_key user_id) new_balance ;;
      ret (reservation_id, float estimated_cost, float new_balance)
  end.

Definition set_status (s : status) (r : reservation) : reservation :=
  Resv (r_user_id r) (r_model r) (r_endpoint r) (r_input_tokens r) (r_output_tokens r)
    (r_estimated_cost r) s (r_created_at r) (r_actual_cost r)
    (r_input_tokens_actual r) (r_output_tokens_actual r) (r_expires_at r).
Definition set_actual_cost (c : dec) (r : reservation) : reservation :=
  Resv (r_user_id r) (r_model r) (r_endpoint r) (r_input_tokens r) (r_output_tokens r)
    (r_estimated_cost r) (r_status r) (r_created_at r) (Some c)
    (r_input_tokens_actual r) (r_output_tokens_actual r) (r_expires_at r).
Definition set_input_actual (n : Z) (r : reservation) : reservation :=
  Resv (r_user_id r) (r_model r) (r_endpoint r) (r_input_tokens r) (r_output_tokens r)
    (r_estimated_cost r) (r_status r) (r_created_at r) (r_actual_cost r)
    (Some n) (r_output_tokens_actual r) (r_expires_at r).
Definition set_output_actual (n : Z) (r : reservation) : reservation :=
  Resv (r_user_id r) (r_model r) (r_endpoint r) (r_input_tokens r) (r_output_tokens r)
    (r_estimated_cost r) (r_status r) (r_created_at r) (r_actual_cost r)
    (r_input_tokens_actual r) (Some n) (r_expires_at r).

Definition is_committed (r : reservation) : bool :=
  match r_status r with Committed => true | Reserved => false end.

(** Commit's [try] block: four [hset]s then [expire]; any failure becomes
    [ReservationError]. *)
Definition mark_committed (key : string) (actual_cost : dec)
    (input_tokens_actual output_tokens_actual : Z) : M unit :=
  reraise_as ReservationError
    (r_hupdate key (set_status Committed) ;;
     r_hupdate key (set_actual_cost actual_cost) ;;
     r_hupdate key (set_input_actual input_tokens_actual) ;;
     r_hupdate key (set_output_actual output_tokens_actual) ;;
     r_expire key COMMITTED_TTL).

(** [BillingService.Commit]; returns [(float(actual_cost),
    float(new_balance))]. *)
Definition Commit (ctx : context) (request : commit_request) : M (dec * dec) :=
  authenticate ctx ;;
  let reservation_id := cm_reservation_id request in
  let input_tokens_actual := cm_input_tokens_actual request in
  let output_tokens_actual := cm_output_tokens_actual request in
  check (reservation_id_ok reservation_id) ValidationError ;;
  check (negb ((input_tokens_actual <=? 0) || (output_tokens_actual <? 0))) ValidationError ;;
  let key := reservation_key reservation_id in
  let! reservation_data := r_hgetall key in
  match reservation_data with
  | None => raise ReservationError
  | Some data =>
      (* with bytes responses the hash has bytes keys: [.get("status")] and
         the other lookups give [None], and [calculate_cost(None, None, ...)]
         fails before any write *)
      let! decoded := get_decode_responses in
      check decoded InternalError ;;
      check (negb (is_committed data)) ReservationError ;;
      let user_id := r_user_id data in
      let model := r_model data in
      let endpoint := r_endpoint data in
      let estimated_cost := r_estimated_cost data in
      match calculate_cost model endpoint input_tokens_actual output_tokens_actual with
      | Err e => raise e
      | Ok actual_cost =>
          let! stored := r_get (balance_key user_id) in
          let balance := default PyDecimal.zero stored in
          let balance_adjustment := PyDecimal.sub estimated_cost actual_cost in
          let new_balance := PyDecimal.add balance balance_adjustment in
          r_set (balance_key user_id) new_balance ;;
          let! float := get_float_str in
          mark_committed key (float actual_cost) input_tokens_actual output_tokens_actual ;;
          let! t := get_now in
          r_xadd_log (Tx user_id model (Some endpoint) (Some input_tokens_actual)
                        (Some output_tokens_actual) None (float actual_cost) (float new_balance)
                        (Some reservation_id) t) ;;
          r_hincrby ("usage:" +:+ user_id +:+ ":model:" +:+ model) endpoint
            (input_tokens_actual + output_tokens_actual) ;;
          let! d := get_today in
          r_hincrby ("usage:daily:" +:+ d) model (input_tokens_actual + output_tokens_actual) ;;
          ret (float actual_cost, float new_balance)
      end
  end.

(** [EXCHANGE_MANAGER.get_rate] of [server.py]: [ValidationError] when
    missing. *)
Definition get_rate (currency : string) : M dec :=
  fun w => match rates w !! currency with
           | Some r => (Ok r, w)
           | None => (Err ValidationError, w)
           end.

(** [exchange_stub.GetExchangeRates(...)]: [exchange_stub] is not defined
    in [billing_core.py] (NameError). *)
Definition GetExchangeRates : M (gmap string dec) := raise InternalError.

(** [BillingService.GetBalance]; returns [(usd, rub, eur)] as floats; a
    missing rate yields zeros. *)
Definition GetBalance (request : balance_request) : M (dec * dec * dec) :=
  let user_id := or_default (gb_user_id request) "anonymous" in
  check (user_id_ok user_id) ValidationError ;;
  let! stored := r_get (balance_key user_id) in
  let balance := default PyDecimal.zero stored in
  let! rates := GetExchangeRates in
  let! float := get_float_str in
  match rates !! "RUB", rates !! "EUR" with
  | Some rub, Some eur =>
      ret (float balance, float (PyDecimal.mul balance rub), float (PyDecimal.mul balance eur))
  | _, _ => ret (float balance, PyDecimal.zero, PyDecimal.zero)
  end.

(** [BillingService.AdjustBalance]; returns [new_balance_usd]. *)
Definition AdjustBalance (request : adjust_request) : M dec :=
  let user_id := ad_user_id request in
  let amount_usd := ad_amount_usd request in
  let reason := or_default (ad_reason request) "manual_adjustment" in
  check (user_id_ok user_id) ValidationError ;;
  check (amount_ok amount_usd) ValidationError ;;
  let key := balance_key user_id in
  let! stored := r_get key in
  let current := default PyDecimal.zero stored in
  let new := PyDecimal.add current amount_usd in
  r_set key new ;;
  let! t := get_now in
  r_xadd_adjustment (Adj user_id amount_usd reason t) ;;
  ret new.

(** Requests to the service, one after the other, with the clock moving
    between them. *)
Inductive ledger_op :=
  | OpCharge (ctx : context) (request : charge_request)
  | OpReserve (ctx : context) (request : reserve_request)
  | OpCommit (ctx : context) (request : commit_request)
  | OpGetBalance (request : balance_request)
  | OpAdjustBalance (request : adjust_request)
  | OpWait (seconds : Z).

Definition succeeded {A} (o : result A * world) : option world :=
  match o with (Ok _, w') => Some w' | (Err _, _) => None end.

(** [Some w'] when every request of the sequence succeeds. *)
Definition run_op (op : ledger_op) (w : world) : option world :=
  match op with
  | OpCharge ctx rq => succeeded (Charge ctx rq w)
  | OpReserve ctx rq => succeeded (Reserve ctx rq w)
  | OpCommit ctx rq => succeeded (Commit ctx rq w)
  | OpGetBalance rq => succeeded (GetBalance rq w)
  | OpAdjustBalance rq => succeeded (AdjustBalance rq w)
  | OpWait s => Some (set_now w (now w + Z.max 0 s))
  end.

Fixpoint accepted (ops : list ledger_op) (w : world) : option world :=
  match ops with
  | [] => Some w
  | op :: rest => match run_op op w with Some w' => accepted rest w' | None => None end
  end.

End Ledger.

(* ================================================================== *)
(** ** [ExchangeRateManager] (exchange_service.py, server.py)          *)
(* ================================================================== *)

Module Exchange.
Local Open Scope Z_scope.

(** The in-memory state: [self.rates] and [self.supported_currencies].
    The copies written to Redis are not read back by these operations. *)
Record manager := Manager {
  rates : gmap string dec;
  supported_currencies : list string }.

(** exchange_service.py's [EXCHANGE_RATES]. *)
Definition EXCHANGE_RATES : gmap string dec :=
  list_to_map [("USD", Dec 1 0); ("EUR", Dec 92 (-2)); ("RUB", Dec 9650 (-2));
               ("USDT", Dec 1 0); ("GBP", Dec 79 (-2)); ("CNY", Dec 723 (-2));
               ("JPY", Dec 15675 (-2)); ("INR", Dec 8345 (-2))].

Definition initial : manager :=
  Manager EXCHANGE_RATES ["USD"; "EUR"; "RUB"; "USDT"; "GBP"; "CNY"; "JPY"; "INR"].

Definition is_alpha (c : Ascii.ascii) : bool :=
  Validators.in_range c 65 90 || Validators.in_range c 97 122.

(** [currency.isalpha() and len(currency) == 3] *)
Definition currency_code_ok (currency : string) : bool :=
  let l := String.list_ascii_of_string currency in
  forallb is_alpha l && (length l =? 3)%nat.

(** [exchange_service.py] raises [ValidationError] and
    [ExternalServiceError] without defining them: each such [raise] is a
    NameError, written [Err InternalError]. The Redis copies are written
    with [json.dumps(self.rates)], a TypeError on any [Decimal] value, and
    every rate the manager holds is one. An operation returns its outcome
    together with the state it leaves, mutated or not. *)

(** [json.dumps] of the rates dict. *)
Definition json_dumps_rates (r : gmap string dec) : result unit :=
  if (size r =? 0)%nat then Ok tt else Err InternalError.

Definition add_currency (currency : string) (rate : dec) (m : manager) : result unit * manager :=
  if decide (is_Some (rates m !! currency)) then (Err InternalError, m)
  else if negb (currency_code_ok currency) then (Err InternalError, m)
  else
    let m' := Manager (<[currency := rate]> (rates m)) (supported_currencies m ++ [currency]) in
    (json_dumps_rates (rates m'), m').

(** [list.remove]: the first occurrence; [ValueError] when absent. *)
Fixpoint list_remove (x : string) (l : list string) : option (list string) :=
  match l with
  | [] => None
  | y :: l' => if String.eqb x y then Some l' else option_map (cons y) (list_remove x l')
  end.

(** [del self.rates[currency]] comes before [.remove(currency)]. *)
Definition remove_currency (currency : string) (m : manager) : result unit * manager :=
  if String.eqb currency "USD" || String.eqb currency "USDT" then (Err InternalError, m)
  else if negb (bool_decide (is_Some (rates m !! currency))) then (Err InternalError, m)
  else match list_remove currency (supported_currencies m) with
       | Some l =>
           let m' := Manager (delete currency (rates m)) l in
           (json_dumps_rates (rates m'), m')
       | None => (Err InternalError, Manager (delete currency (rates m)) (supported_currencies m))
       end.

Definition update_currency_rate (currency : string) (rate : dec) (m : manager) : result unit * manager :=
  if negb (bool_decide (is_Some (rates m !! currency))) then (Err InternalError, m)
  else
    let m' := Manager (<[currency := rate]> (rates m)) (supported_currencies m) in
    (json_dumps_rates (rates m'), m').

(** [fetch_exchange_rates] given the feed's [data["rates"]] as decimals
    ([None]: the request, its JSON or its ["rates"] key failed). A missing
    or zero rate keeps the current one, or 1. [self.rates = new_rates]
    precedes the [json.dumps]. *)
Definition fetch_exchange_rates (feed : option (gmap string dec)) (m : manager) : result unit * manager :=
  match feed with
  | None => (Err InternalError, m)
  | Some api =>
      let pick (acc : gmap string dec) (currency : string) :=
        if String.eqb currency "USD" then acc
        else if String.eqb currency "USDT" then <[currency := Dec 1 0]> acc
        else match api !! currency with
             | Some rate =>
                 if PyDecimal.eqb rate PyDecimal.zero
                 then <[currency := default (Dec 1 0) (rates m !! currency)]> acc
                 else <[currency := rate]> acc
             | None => <[currency := default (Dec 1 0) (rates m !! currency)]> acc
             end in
      let m' := Manager (foldl pick {["USD" := Dec 1 0]} (supported_currencies m))
                  (supported_currencies m) in
      (json_dumps_rates (rates m'), m')
  end.

Inductive exchange_op :=
  | AddCurrency (currency : string) (rate : dec)
  | RemoveCurrency (currency : string)
  | UpdateCurrencyRate (currency : string) (rate : dec)
  | FetchExchangeRates (feed : option (gmap string dec)).

Definition exchange_step (op : exchange_op) (m : manager) : result unit * manager :=
  match op with
  | AddCurrency c r => add_currency c r m
  | RemoveCurrency c => remove_currency c m
  | UpdateCurrencyRate c r => update_currency_rate c r m
  | FetchExchangeRates feed => fetch_exchange_rates feed m
  end.

(** A sequence of admin operations on the process's manager: each one
    starts from the state the previous one left, whether it raised or not. *)
Fixpoint run_exchange (ops : list exchange_op) (m : manager) : manager :=
  match ops with
  | [] => m
  | op :: rest => run_exchange rest (snd (exchange_step op m))
  end.

End Exchange.

(* ================================================================== *)
(** ** [MonitoringSystem] (monitoring_service.py, server.py)          *)
(* ================================================================== *)

Module Monitoring.
Local Open Scope Z_scope.

Inductive alert :=
  | HighErrorRate
  | LowReservationTTL
  | LowBalance (user_id : string) (balance : dec)
  | HighUsage (user_id : string) (tokens : Z).

(** The [low_balance] and [high_usage] entries of [self.alert_thresholds],
    [self.metrics], the [ALERT] warnings emitted so far (time, message),
    and whether [self.lock] (a non-reentrant [threading.Lock]) is held. *)
Record monitor := Mon {
  low_balance : dec;
  high_usage : Z;
  total_requests : Z;
  successful_requests : Z;
  failed_requests : Z;
  total_charges : dec;
  total_reservations : Z;
  total_commits : Z;
  last_alert : Z;
  alert_cooldown : Z;
  alerts : list (Z * alert);
  lock_held : bool }.

(** [MonitoringSystem()]: thresholds [Decimal("10.00")] and [1000000]. *)
Definition initial : monitor :=
  Mon (Dec 1000 (-2)) 1000000 0 0 0 PyDecimal.zero 0 0 0 3600 [] false.

(** A call returns, raises, or waits for ever on the lock. *)
Inductive outcome :=
  | Done (m : monitor)
  | Raised (e : err) (m : monitor)
  | Blocked (m : monitor).

(** [trigger_alert]: the warning is always logged; a failing [xadd] is
    swallowed. *)
Definition trigger_alert (message : alert) (t : Z) (m : monitor) : outcome :=
  if lock_held m then Blocked m
  else Done (Mon (low_balance m) (high_usage m) (total_requests m) (successful_requests m)
               (failed_requests m) (total_charges m) (total_reservations m) (total_commits m) t
               (alert_cooldown m) (alerts m ++ [(t, message)]) false).

(** [check_alerts]: [self.alert_cooldown] is not an attribute (the
    cooldown lives in [self.metrics]), so the comparison raises
    [AttributeError] once the lock is taken. *)
Definition check_alerts (t : Z) (m : monitor) : outcome :=
  if lock_held m then Blocked m else Raised InternalError m.

(** [log_transaction]: updates the counters under the lock, then calls
    [check_alerts], which waits for the lock its caller holds. *)
Definition log_transaction (tx_type : string) (amount : option dec) (success : bool)
    (t : Z) (m : monitor) : outcome :=
  if lock_held m then Blocked m
  else
    let charged := match amount with
                   | Some a => String.eqb tx_type "charge" && negb (PyDecimal.eqb a PyDecimal.zero)
                   | None => false
                   end in
    let m' := Mon (low_balance m) (high_usage m) (total_requests m + 1)
                (if success then successful_requests m + 1 else successful_requests m)
                (if success then failed_requests m else failed_requests m + 1)
                (if charged then PyDecimal.add (total_charges m) (default PyDecimal.zero amount)
                 else total_charges m)
                (if charged then total_reservations m
                 else if String.eqb tx_type "reserve" then total_reservations m + 1
                 else total_reservations m)
                (if charged then total_commits m
                 else if String.eqb tx_type "reserve" then total_commits m
                 else if String.eqb tx_type "commit" then total_commits m + 1
                 else total_commits m)
                (last_alert m) (alert_cooldown m) (alerts m) true in
    check_alerts t m'.

Definition check_user_balance (user_id : string) (balance : dec) (t : Z) (m : monitor) : outcome :=
  if PyDecimal.ltb balance (low_balance m) then trigger_alert (LowBalance user_id balance) t m
  else Done m.

Definition check_usage (user_id : string) (tokens : Z) (t : Z) (m : monitor) : outcome :=
  if high_usage m <? tokens then trigger_alert (HighUsage user_id tokens) t m
  else Done m.

(** The POST of [/admin/monitoring/thresholds] ([server.py]) and
    [UpdateThresholds] ([monitoring_service.py]) for the two thresholds
    above: under the lock, each key given replaces the current value
    ([low_balance] through [Decimal(str(value))]; [high_usage] as an
    integer). *)
Definition update_thresholds (low : option dec) (high : option Z) (t : Z) (m : monitor) : outcome :=
  if lock_held m then Blocked m
  else Done (Mon (default (low_balance m) low) (default (high_usage m) high) (total_requests m)
               (successful_requests m) (failed_requests m) (total_charges m)
               (total_reservations m) (total_commits m) (last_alert m) (alert_cooldown m)
               (alerts m) false).

Inductive monitor_op :=
  | CheckUserBalance (user_id : string) (balance : dec)
  | CheckUsage (user_id : string) (tokens : Z)
  | CheckAlerts
  | LogTransaction (tx_type : string) (amount : option dec) (success : bool)
  | UpdateThresholds (low : option dec) (high : option Z).

Definition monitor_step (op : monitor_op) (t : Z) (m : monitor) : outcome :=
  match op with
  | CheckUserBalance u b => check_user_balance u b t m
  | CheckUsage u n => check_usage u n t m
  | CheckAlerts => check_alerts t m
  | LogTransaction k a s => log_transaction k a s t m
  | UpdateThresholds l h => update_thresholds l h t m
  end.

Definition state_of (o : outcome) : monitor :=
  match o with Done m | Raised _ m | Blocked m => m end.

(** Calls at the given times, one after the other in one process; a
    blocked call keeps the lock. *)
Fixpoint run_monitor (ops : list (Z * monitor_op)) (m : monitor) : monitor :=
  match ops with
  | [] => m
  | (t, op) :: rest => run_monitor rest (state_of (monitor_step op t m))
  end.

(** Consecutive emissions at least [gap] seconds apart. *)
Fixpoint spaced (gap : Z) (l : list (Z * alert)) : bool :=
  match l with
  | (t1, _) :: (((t2, _) :: _) as rest) => (gap <=? t2 - t1) && spaced gap rest
  | _ => true
  end.

End Monitoring.

(* ================================================================== *)
(** ** [BillingService] of [server.py]                                 *)
(* ================================================================== *)

(** The ledger bodies of [server.py]: those of [billing_core.py] with
    [PRICING_MANAGER] behind [calculate_cost], [EXCHANGE_MANAGER] behind
    [GetBalance], [RESERVATION_TTL = 600], and calls on the process's
    [MONITORING] object. [MONITORING.log_transaction] takes
    [MONITORING.lock] and calls [check_alerts], which takes the same
    non-reentrant lock: that call never returns. *)
Module Server.
Import Validators.
Import -(notations) Ledger.
Local Open Scope Z_scope.

Definition RESERVATION_TTL : Z := 600.

(** The process: the Redis world and [MONITORING]. *)
Definition state : Type := world * Monitoring.monitor.

(** A call returns (a value, or the exception it raises), or waits for
    ever on a lock. *)
Inductive reply (A : Type) :=
  | Returns (r : result A)
  | Waits.
Arguments Returns {A} r.
Arguments Waits {A}.

Definition SM (A : Type) := state -> reply A * state.

Definition sret {A} (a : A) : SM A := fun s => (Returns (Ok a), s).

Definition sbind {A B} (m : SM A) (k : A -> SM B) : SM B :=
  fun s => match m s with
           | (Returns (Ok a), s') => k a s'
           | (Returns (Err e), s') => (Returns (Err e), s')
           | (Waits, s') => (Waits, s')
           end.

Local Notation "'let!' x := m 'in' k" := (sbind m (fun x => k))
  (at level 200, x name, m at level 100, k at level 200).
Local Notation "m ;; k" := (sbind m (fun _ => k)) (at level 100, right associativity).

(** A step on Redis and the process's inputs. *)
Definition lift {A} (m : M A) : SM A :=
  fun s => let '(r, w') := m (fst s) in (Returns r, (w', snd s)).

(** A call on [MONITORING] at [time.time()]. *)
Definition monitoring (f : Z -> Monitoring.monitor -> Monitoring.outcome) : SM unit :=
  fun s => match f (now (fst s)) (snd s) with
           | Monitoring.Done m => (Returns (Ok tt), (fst s, m))
           | Monitoring.Raised e m => (Returns (Err e), (fst s, m))
           | Monitoring.Blocked m => (Waits, (fst s, m))
           end.

(** [BillingService.Charge]. *)
Definition Charge (ctx : context) (request : charge_request) : SM dec :=
  lift (authenticate ctx) ;;
  let user_id := or_default (ch_user_id request) "anonymous" in
  let model := ch_model request in
  let tokens_used := ch_tokens_used request in
  let cost := ch_cost request in
  lift (check (user_id_ok user_id) ValidationError) ;;
  lift (check (model_id_ok model) ValidationError) ;;
  lift (check (negb (tokens_used <=? 0)) ValidationError) ;;
  lift (check (negb (PyDecimal.leb cost PyDecimal.zero)) ValidationError) ;;
  let! stored := lift (r_get (balance_key user_id)) in
  let balance := default PyDecimal.zero stored in
  monitoring (Monitoring.check_user_balance user_id balance) ;;
  lift (check (negb (PyDecimal.ltb balance cost)) BalanceError) ;;
  let new_balance := PyDecimal.sub balance cost in
  lift (r_set (balance_key user_id) new_balance) ;;
  let! t := lift get_now in
  let! float := lift get_float_str in
  lift (r_xadd_log (Tx user_id model None None None (Some tokens_used) (float cost)
                      (float new_balance) None t)) ;;
  lift (r_hincrby ("usage:" +:+ user_id +:+ ":model:" +:+ model) "direct" tokens_used) ;;
  let! d := lift get_today in
  lift (r_hincrby ("usage:daily:" +:+ d) model tokens_used) ;;
  monitoring (Monitoring.log_transaction "charge" (Some cost) true) ;;
  sret (float new_balance).

(** Reserve's [try] block: [hmset] then [expire(key, RESERVATION_TTL)];
    any failure becomes [ReservationError]. *)
Definition store_reservation (key : string) (data : reservation) : M unit :=
  reraise_as ReservationError (bind (r_hmset key data) (fun _ => r_expire key RESERVATION_TTL)).

(** [BillingService.Reserve]. *)
Definition Reserve (ctx : context) (request : reserve_request) : SM (string * dec * dec) :=
  lift (authenticate ctx) ;;
  let user_id := or_default (rv_user_id request) "anonymous" in
  let! request_id :=
    lift (if String.eqb (rv_request_id request) "" then uuid4 else ret (rv_request_id request)) in
  let model := rv_model request in
  let endpoint := rv_endpoint request in
  let input_tokens := rv_input_tokens_estimate request in
  let output_tokens := rv_output_tokens_estimate request in
  lift (check (user_id_ok user_id) ValidationError) ;;
  lift (check (model_id_ok model) ValidationError) ;;
  lift (check (negb ((input_tokens <=? 0) || (output_tokens <? 0))) ValidationError) ;;
  let! table := lift get_pricing in
  match Pricing.calculate_cost table model endpoint input_tokens output_tokens with
  | Err e => lift (raise e)
  | Ok estimated_cost =>
      lift (check (negb (PyDecimal.leb estimated_cost PyDecimal.zero)) PricingError) ;;
      let! stored := lift (r_get (balance_key user_id)) in
      let balance := default PyDecimal.zero stored in
      monitoring (Monitoring.check_user_balance user_id balance) ;;
      lift (check (negb (PyDecimal.ltb balance estimated_cost)) BalanceError) ;;
      let! t := lift get_now in
      let! float := lift get_float_str in
      let reservation_id := "res:" +:+ user_id +:+ ":" +:+ request_id +:+ ":" +:+ pretty t in
      let reservation_data :=
        Resv user_id model endpoint input_tokens output_tokens (float estimated_cost) Reserved t
          None None None None in
      lift (store_reservation (reservation_key reservation_id) reservation_data) ;;
      let new_balance := PyDecimal.sub balance estimated_cost in
      lift (r_set (balance_key user_id) new_balance) ;;
      monitoring (Monitoring.log_transaction "reserve" (Some estimated_cost) true) ;;
      sret (reservation_id, float estimated_cost, float new_balance)
  end.

(** [BillingService.Commit]. *)
Definition Commit (ctx : context) (request : commit_request) : SM (dec * dec) :=
  lift (authenticate ctx) ;;
  let reservation_id := cm_reservation_id request in
  let input_tokens_actual := cm_input_tokens_actual request in
  let output_tokens_actual := cm_output_tokens_actual request in
  lift (check (reservation_id_ok reservation_id) ValidationError) ;;
  lift (check (negb ((input_tokens_actual <=? 0) || (output_tokens_actual <? 0)))
          ValidationError) ;;
  let key := reservation_key reservation_id in
  let! reservation_data := lift (r_hgetall key) in
  match reservation_data with
  | None => lift (raise ReservationError)
  | Some data =>
      (* bytes responses: see [Ledger.Commit] *)
      let! decoded := lift get_decode_responses in
      lift (check decoded InternalError) ;;
      lift (check (negb (is_committed data)) ReservationError) ;;
      let user_id := r_user_id data in
      let model := r_model data in
      let endpoint := r_endpoint data in
      let estimated_cost := r_estimated_cost data in
      let! table := lift get_pricing in
      match Pricing.calculate_cost table model endpoint input_tokens_actual output_tokens_actual with
      | Err e => lift (raise e)
      | Ok actual_cost =>
          let! stored := lift (r_get (balance_key user_id)) in
          let balance := default PyDecimal.zero stored in
          let balance_adjustment := PyDecimal.sub estimated_cost actual_cost in
          let new_balance := PyDecimal.add balance balance_adjustment in
          lift (r_set (balance_key user_id) new_balance) ;;
          let! float := lift get_float_str in
          lift (mark_committed key (float actual_cost) input_tokens_actual output_tokens_actual) ;;
          let! t := lift get_now in
          lift (r_xadd_log (Tx user_id model (Some endpoint) (Some input_tokens_actual)
                              (Some output_tokens_actual) None (float actual_cost)
                              (float new_balance) (Some reservation_id) t)) ;;
          lift (r_hincrby ("usage:" +:+ user_id +:+ ":model:" +:+ model) endpoint
                  (input_tokens_actual + output_tokens_actual)) ;;
          let! d := lift get_today in
          lift (r_hincrby ("usage:daily:" +:+ d) model
                  (input_tokens_actual + output_tokens_actual)) ;;
          monitoring (Monitoring.log_transaction "commit" (Some actual_cost) true) ;;
          sret (float actual_cost, float new_balance)
      end
  end.

(** [BillingService.GetBalance]: [EXCHANGE_MANAGER.get_rate] raises
    [ValidationError] on a missing currency, which yields zeros. *)
Definition GetBalance (request : balance_request) : SM (dec * dec * dec) :=
  let user_id := or_default (gb_user_id request) "anonymous" in
  lift (check (user_id_ok user_id) ValidationError) ;;
  let! stored := lift (r_get (balance_key user_id)) in
  let balance := default PyDecimal.zero stored in
  monitoring (Monitoring.check_user_balance user_id balance) ;;
  let! float := lift get_float_str in
  lift (fun w =>
          match get_rate "RUB" w, get_rate "EUR" w with
          | (Ok rub, _), (Ok eur, _) =>
              (Ok (float balance, float (PyDecimal.mul balance rub),
                   float (PyDecimal.mul balance eur)), w)
          | _, _ => (Ok (float balance, PyDecimal.zero, PyDecimal.zero), w)
          end).

(** [BillingService.AdjustBalance]. *)
Definition AdjustBalance (request : adjust_request) : SM dec :=
  let user_id := ad_user_id request in
  let amount_usd := ad_amount_usd request in
  let reason := or_default (ad_reason request) "manual_adjustment" in
  lift (check (user_id_ok user_id) ValidationError) ;;
  lift (check (amount_ok amount_usd) ValidationError) ;;
  let key := balance_key user_id in
  let! stored := lift (r_get key) in
  let current := default PyDecimal.zero stored in
  let new := PyDecimal.add current amount_usd in
  lift (r_set key new) ;;
  let! t := lift get_now in
  lift (r_xadd_adjustment (Adj user_id amount_usd reason t)) ;;
  monitoring (Monitoring.log_transaction "adjust" (Some amount_usd) true) ;;
  let! float := lift get_float_str in
  sret (float new).

Definition returned {A} (o : reply A * state) : option state :=
  match o with (Returns (Ok _), s') => Some s' | _ => None end.

(** [Some s'] when every request of the sequence returns successfully. *)
Definition run_op (op : ledger_op) (s : state) : option state :=
  match op with
  | OpCharge ctx rq => returned (Charge ctx rq s)
  | OpReserve ctx rq => returned (Reserve ctx rq s)
  | OpCommit ctx rq => returned (Commit ctx rq s)
  | OpGetBalance rq => returned (GetBalance rq s)
  | OpAdjustBalance rq => returned (AdjustBalance rq s)
  | OpWait sec => Some (set_now (fst s) (now (fst s) + Z.max 0 sec), snd s)
  end.

Fixpoint accepted (ops : list ledger_op) (s : state) : option state :=
  match ops with
  | [] => Some s
  | op :: rest => match run_op op s with Some s' => accepted rest s' | None => None end
  end.

End Server.

(* ================================================================== *)
(** ** Payment endpoints ([server.py])                                *)
(* ================================================================== *)

Module Http.
Import Validators Ledger.
Local Open Scope Z_scope.

(** An entry of the [billing:deposits] stream. *)
Record deposit := Deposit {
  dep_user_id : string;
  dep_amount_usd : dec;
  dep_source : string;
  dep_timestamp : Z }.

(** The ledger state with the deposit stream beside it. *)
Definition W (A : Type) := world * list deposit -> result A * (world * list deposit).

Definition lift {A} (m : M A) : W A :=
  fun s => let '(r, w') := m (fst s) in (r, (w', snd s)).

Definition wbind {A B} (m : W A) (k : A -> W B) : W B :=
  fun s => match m s with
           | (Ok a, s') => k a s'
           | (Err e, s') => (Err e, s')
           end.

Definition wret {A} (a : A) : W A := fun s => (Ok a, s).
Definition wraise {A} (e : err) : W A := fun s => (Err e, s).

(** [r.xadd("billing:deposits", entry)] *)
Definition r_xadd_deposit (d : deposit) : W unit :=
  wbind (lift redis_call) (fun _ s => (Ok tt, (fst s, snd s ++ [d]))).

(** [Decimal(n) / 100] for an integer [n]: the exact quotient at the
    exponent nearest 0 that holds it, then [_fix]. *)
Definition div_100 (n : Z) : dec :=
  if Z.rem n 100 =? 0 then context_round (Dec (Z.quot n 100) 0)
  else if Z.rem n 10 =? 0 then context_round (Dec (Z.quot n 10) (-1))
  else context_round (Dec n (-2)).

(** [int(x)] on a decimal: truncation toward zero. *)
Definition int_trunc (x : dec) : Z :=
  if 0 <=? dexp x then coef x * 10 ^ dexp x else Z.quot (coef x) (10 ^ (- dexp x)).

(** The Stripe event [construct_event] returns: its type, the session's
    [metadata.get("user_id")] and its [amount_total] in cents. *)
Record event := Event {
  ev_type : string;
  ev_user_id : option string;
  ev_amount_total : Z }.

(** [stripe_webhook]; [verified] is the result of
    [stripe.Webhook.construct_event] ([ValidationError] for a bad
    payload, [AuthenticationError] for a bad signature). *)
Definition stripe_webhook (verified : result event) : W unit :=
  match verified with
  | Err e => wraise e
  | Ok ev =>
      if String.eqb (ev_type ev) "checkout.session.completed" then
        match ev_user_id ev with
        | None => wraise ValidationError
        | Some user_id =>
            if String.eqb user_id "" then wraise ValidationError
            else if negb (user_id_ok user_id) then wraise ValidationError
            else
              let amount_usd := div_100 (ev_amount_total ev) in
              let key := balance_key user_id in
              wbind (lift (r_get key)) (fun stored =>
              let current := default zero stored in
              wbind (lift (r_set key (add current amount_usd))) (fun _ =>
              wbind (lift get_now) (fun t =>
              wbind (lift get_float_str) (fun float_str =>
              r_xadd_deposit (Deposit user_id (float_str amount_usd) "stripe" t)))))
        end
      else wret tt
  end.

(** [create_checkout] up to the Stripe call: the [unit_amount] in cents
    of the session it asks for. *)
Definition create_checkout (user_id : string) (amount : dec) : result Z :=
  if negb (user_id_ok user_id) then Err ValidationError
  else if negb (amount_ok amount) then Err ValidationError
  else Ok (int_trunc (mul amount (of_int 100))).

End Http.


(* ================================================================== *)
(** ** Concrete deployments used by the examples                      *)
(* ================================================================== *)

Module Scenarios.
Import Ledger.
Local Open Scope Z_scope.

(** A request carrying a token that [jwt.decode] accepts. *)
Definition authorized : context := Ctx [("authorization", "valid-token")].

(** A process at [time.time() = 1700000000] whose Redis client decodes
    responses (REDIS_URL with [decode_responses=True]), never fails, and
    holds the given balances. Costs below have few digits, so
    [Decimal(str(float(x)))] gives [x] back. *)
Definition deployment (bals : gmap string dec) (fs : list bool) : world :=
  World bals ∅ [] [] ∅ DEFAULT_PRICING Exchange.EXCHANGE_RATES 1700000000 "2023-11-14"
    [] (fun t => String.eqb t "valid-token") true (fun x => x) fs.

Definition alice_with (amount : dec) : gmap string dec := {["balance:alice" := amount]}.



End Scenarios.

(** Properties of the ledger stated over the model's states. *)
Module Properties.
Import Ledger.
Local Open Scope Z_scope.

(** Every stored balance is non-negative. *)
Definition nonneg_balances (w : world) : Prop :=
  map_Forall (fun _ v => 0 <= coef v) (balances w).


End Properties.


(* ================================================================== *)
(** * Proofs                                                           *)
(* ================================================================== *)

Module DecimalFacts.
Import CostSpec.
Local Open Scope Z_scope.

Lemma context_round_small (x : dec) :
  Z.abs (coef x) < 10 ^ PREC -> context_round x = x.
Proof.
  intros H. unfold context_round. apply Z.ltb_lt in H. now rewrite H.
Qed.

Lemma Q10_pow_add (a b : Z) : ((10 # 1) ^ (a + b) == (10 # 1) ^ a * (10 # 1) ^ b)%Q.
Proof. apply Qpower_plus. discriminate. Qed.

Lemma Q10_pow_nonneg (n : Z) : 0 <= n -> ((10 # 1) ^ n == inject_Z (10 ^ n))%Q.
Proof. intros H. symmetry. now apply (Zpower_Qpower 10 n). Qed.

Lemma to_Q_scaled (x : dec) (m : Z) :
  m <= dexp x -> (to_Q (Dec (scaled x m) m) == to_Q x)%Q.
Proof.
  intros H. unfold to_Q, scaled; simpl.
  rewrite inject_Z_mult, <- Q10_pow_nonneg by lia.
  rewrite <- Qmult_assoc, <- Q10_pow_add.
  now replace (dexp x - m + m) with (dexp x) by lia.
Qed.

Lemma to_Q_add_exact (x y : dec) (m : Z) :
  m <= dexp x -> m <= dexp y ->
  (to_Q (Dec (scaled x m + scaled y m) m) == to_Q x + to_Q y)%Q.
Proof.
  intros Hx Hy.
  rewrite <- (to_Q_scaled x m Hx), <- (to_Q_scaled y m Hy).
  unfold to_Q; simpl. rewrite inject_Z_plus. ring.
Qed.

Lemma to_Q_mul_exact (x y : dec) :
  (to_Q (Dec (coef x * coef y) (dexp x + dexp y)) == to_Q x * to_Q y)%Q.
Proof.
  unfold to_Q; simpl. rewrite inject_Z_mult, Q10_pow_add. ring.
Qed.

Lemma to_Q_shift6 (x : dec) :
  (to_Q (Dec (coef x) (dexp x - 6)) == to_Q x / inject_Z 1000000)%Q.
Proof.
  unfold to_Q; simpl.
  replace (dexp x - 6) with (dexp x + Z.opp 6) by lia.
  rewrite Q10_pow_add, Qpower_opp.
  change ((10 # 1) ^ 6)%Q with (inject_Z 1000000).
  unfold Qdiv. ring.
Qed.

Lemma round_half_up_comp (p q : Q) : (p == q)%Q -> round_half_up p = round_half_up q.
Proof.
  intros H. unfold round_half_up.
  assert (Hb : Qle_bool 0 p = Qle_bool 0 q).
  { destruct (Qle_bool 0 p) eqn:E1, (Qle_bool 0 q) eqn:E2; auto.
    - apply Qle_bool_iff in E1. rewrite H in E1. apply Qle_bool_iff in E1. congruence.
    - apply Qle_bool_iff in E2. rewrite <- H in E2. apply Qle_bool_iff in E2. congruence. }
  rewrite Hb. destruct (Qle_bool 0 q).
  - apply Qfloor_comp. now rewrite H.
  - f_equal. apply Qfloor_comp. now rewrite H.
Qed.

(** Half-up rounding of [a / D] as a floor. *)
Lemma div_half_up_floor (a D : Z) :
  0 <= a -> 0 < D -> div_half_up a D = (a * 2 + D) / (D * 2).
Proof.
  intros Ha HD. unfold div_half_up.
  pose proof (Z.div_mod a D ltac:(lia)) as Hdm.
  pose proof (Z.mod_pos_bound a D HD) as Hr.
  set (q := a / D) in *. set (r := a mod D) in *.
  destruct (D <=? 2 * r) eqn:E.
  - apply Z.leb_le in E.
    apply Z.div_unique with (r := 2 * r - D); lia.
  - apply Z.leb_gt in E. rewrite Z.add_0_r.
    apply Z.div_unique with (r := 2 * r + D); lia.
Qed.

Lemma round_half_up_frac (c : Z) (p : positive) :
  round_half_up (c # p) =
  if 0 <=? c then (c * 2 + Z.pos p) / (Z.pos p * 2)
  else - ((- c * 2 + Z.pos p) / (Z.pos p * 2)).
Proof.
  unfold round_half_up, Qle_bool, Qfloor, Qplus, Qopp; simpl.
  rewrite ?Z.mul_1_r, ?Z.mul_0_l, ?Z.mul_1_l.
  change (Z.pos (p * 2)) with (Z.pos p * 2). destruct (0 <=? c); reflexivity.
Qed.

Lemma round_half_up_Z (n : Z) : round_half_up (inject_Z n) = n.
Proof.
  unfold inject_Z. rewrite round_half_up_frac.
  destruct (0 <=? n) eqn:E.
  - symmetry. apply Z.div_unique with (r := 1); lia.
  - apply Z.leb_gt in E.
    rewrite <- (Z.div_unique (- n * 2 + 1) (1 * 2) (- n) 1); lia.
Qed.

Lemma Q_div_pos (c D : Z) (HD : 0 < D) :
  (inject_Z c * / inject_Z D == c # Z.to_pos D)%Q.
Proof.
  destruct D as [|d|d]; try lia. unfold Qeq; simpl. lia.
Qed.

(** The coefficient [quantize_5] computes is the half-up rounding of the
    exact value at five decimals. *)
Lemma quantize_5_coef (c e : Z) :
  (if -5 <=? e then c * 10 ^ (e + 5)
   else Z.sgn c * div_half_up (Z.abs c) (10 ^ (-5 - e)))
  = quantize_5_spec (to_Q (Dec c e)).
Proof.
  unfold quantize_5_spec, to_Q; simpl.
  destruct (-5 <=? e) eqn:E.
  - apply Z.leb_le in E.
    rewrite (round_half_up_comp _ (inject_Z (c * 10 ^ (e + 5)))).
    { now rewrite round_half_up_Z. }
    rewrite inject_Z_mult, <- Q10_pow_nonneg, Q10_pow_add by lia.
    change (inject_Z 100000) with ((10 # 1) ^ 5)%Q. ring.
  - apply Z.leb_gt in E.
    set (k := -5 - e).
    assert (HD : 0 < 10 ^ k) by (apply Z.pow_pos_nonneg; lia).
    rewrite (round_half_up_comp _ (c # Z.to_pos (10 ^ k))).
    2:{ rewrite <- Q_div_pos by exact HD.
        rewrite <- Q10_pow_nonneg by lia. rewrite <- Qpower_opp.
        rewrite <- Qmult_assoc. change (inject_Z 100000) with ((10 # 1) ^ 5)%Q.
        rewrite <- Q10_pow_add. replace (e + 5) with (- k) by lia. reflexivity. }
    rewrite round_half_up_frac, Z2Pos.id by exact HD.
    rewrite div_half_up_floor by lia.
    destruct (Z.ltb_spec 0 c) as [Hc|Hc].
    + replace (0 <=? c) with true by (symmetry; apply Z.leb_le; lia).
      rewrite Z.sgn_pos, Z.abs_eq by lia. lia.
    + destruct (Z.eq_dec c 0) as [->|Hc0].
      * change (Z.sgn 0) with 0. rewrite Z.mul_0_l.
        change (0 <=? 0) with true. cbv beta iota.
        rewrite Z.div_small; lia.
      * replace (0 <=? c) with false by (symmetry; apply Z.leb_gt; lia).
        rewrite Z.sgn_neg, Z.abs_neq by lia. lia.
Qed.

Lemma quantize_5_correct (x : dec) :
  Z.abs (quantize_5_spec (to_Q x)) < 10 ^ PREC ->
  quantize_5 x = Some (Dec (quantize_5_spec (to_Q x)) (-5)).
Proof.
  intros H. destruct x as [c e]. unfold quantize_5; simpl.
  rewrite (quantize_5_coef c e). apply Z.ltb_lt in H. now rewrite H.
Qed.

End DecimalFacts.

Module CostFacts.
Import CostSpec DecimalFacts.
Local Open Scope Z_scope.

Lemma quantize_5_spec_comp (p q : Q) : (p == q)%Q -> quantize_5_spec p = quantize_5_spec q.
Proof. intros H. unfold quantize_5_spec. apply round_half_up_comp. now rewrite H. Qed.

Lemma to_Q_of_int (n : Z) : (to_Q (of_int n) == inject_Z n)%Q.
Proof. unfold to_Q, of_int; simpl. ring. Qed.

Lemma div_million_small (p : dec) :
  Z.abs (coef p) < 10 ^ PREC -> div_million p = Dec (coef p) (dexp p - 6).
Proof. intros H. unfold div_million. now apply context_round_small. Qed.

Lemma mul_of_int_small (n : Z) (p : dec) :
  Z.abs (n * coef p) < 10 ^ PREC -> mul (of_int n) p = Dec (n * coef p) (dexp p).
Proof. intros H. unfold mul. now rewrite context_round_small. Qed.

(** Without context rounding, the chat total is the exact sum. *)
Lemma chat_total_exact (p_in p_out : dec) (input_tokens output_tokens : Z) :
  Z.abs (coef p_in) < 10 ^ PREC -> Z.abs (coef p_out) < 10 ^ PREC ->
  Z.abs (input_tokens * coef p_in) < 10 ^ PREC ->
  Z.abs (output_tokens * coef p_out) < 10 ^ PREC ->
  Z.abs (input_tokens * coef p_in * 10 ^ (dexp p_in - Z.min (dexp p_in) (dexp p_out))
         + output_tokens * coef p_out * 10 ^ (dexp p_out - Z.min (dexp p_in) (dexp p_out)))
    < 10 ^ PREC ->
  (to_Q (add (mul (of_int input_tokens) (div_million p_in))
             (mul (of_int output_tokens) (div_million p_out)))
   == chat_cost_exact (to_Q p_in) (to_Q p_out) input_tokens output_tokens)%Q.
Proof.
  intros Hi Ho Hmi Hmo Hs.
  rewrite (div_million_small p_in Hi), (div_million_small p_out Ho).
  rewrite (mul_of_int_small input_tokens (Dec _ _) Hmi).
  rewrite (mul_of_int_small output_tokens (Dec _ _) Hmo).
  unfold add; simpl.
  rewrite Z.sub_min_distr_r.
  rewrite context_round_small.
  2:{ unfold scaled; simpl.
      replace (dexp p_in - 6 - (Z.min (dexp p_in) (dexp p_out) - 6))
        with (dexp p_in - Z.min (dexp p_in) (dexp p_out)) by lia.
      replace (dexp p_out - 6 - (Z.min (dexp p_in) (dexp p_out) - 6))
        with (dexp p_out - Z.min (dexp p_in) (dexp p_out)) by lia.
      exact Hs. }
  rewrite to_Q_add_exact by (simpl; lia).
  unfold chat_cost_exact.
  pose proof (to_Q_shift6 p_in) as E1. pose proof (to_Q_shift6 p_out) as E2.
  pose proof (to_Q_mul_exact (of_int input_tokens) (Dec (coef p_in) (dexp p_in - 6))) as M1.
  pose proof (to_Q_mul_exact (of_int output_tokens) (Dec (coef p_out) (dexp p_out - 6))) as M2.
  simpl in M1, M2. rewrite !Z.add_0_l in M1, M2.
  rewrite M1, M2, E1, E2, !to_Q_of_int. field.
Qed.

Lemma embed_total_exact (p_embed : dec) (input_tokens : Z) :
  Z.abs (coef p_embed) < 10 ^ PREC ->
  Z.abs (input_tokens * coef p_embed) < 10 ^ PREC ->
  (to_Q (mul (of_int input_tokens) (div_million p_embed))
   == embed_cost_exact (to_Q p_embed) input_tokens)%Q.
Proof.
  intros He Hm.
  rewrite (div_million_small p_embed He).
  pose proof (to_Q_mul_exact (of_int input_tokens) (Dec (coef p_embed) (dexp p_embed - 6))) as M.
  unfold mul. rewrite context_round_small by exact Hm.
  simpl in M. rewrite Z.add_0_l in M. rewrite M, to_Q_shift6, to_Q_of_int.
  unfold embed_cost_exact, Qdiv. ring.
Qed.

End CostFacts.

(** Facts about Python's context rounding ([_fix]) used by the ledger
    proofs: it keeps the sign, stays within [PREC] digits, and never
    crosses a value representable in [PREC] digits. *)
Module RoundingFacts.
Import PyDecimal.
Local Open Scope Z_scope.

Lemma pow10_pos (n : Z) : 0 <= n -> 0 < 10 ^ n.
Proof. intros; apply Z.pow_pos_nonneg; lia. Qed.

Lemma div_half_even_cases (a D : Z) :
  0 < D ->
  div_half_even a D = a / D \/ (div_half_even a D = a / D + 1 /\ a mod D <> 0).
Proof.
  intros HD. unfold div_half_even.
  pose proof (Z.mod_pos_bound a D HD).
  destruct (D <? 2 * (a mod D)) eqn:E1; [right; split; [reflexivity|]; apply Z.ltb_lt in E1; lia|].
  destruct (2 * (a mod D) <? D) eqn:E2; [left; reflexivity|].
  apply Z.ltb_ge in E1, E2.
  destruct (Z.even (a / D)); [left; reflexivity|right; split; [reflexivity|lia]].
Qed.

Lemma div_half_even_nonneg (a D : Z) : 0 <= a -> 0 < D -> 0 <= div_half_even a D.
Proof.
  intros Ha HD. pose proof (Z.div_pos a D Ha HD).
  destruct (div_half_even_cases a D HD) as [->|[-> _]]; lia.
Qed.

Lemma drop_count_small (fuel : nat) (a : Z) : a < 10 ^ PREC -> drop_count fuel a = 0.
Proof.
  intros H. destruct fuel as [|f]; simpl; [reflexivity|].
  apply Z.ltb_lt in H. now rewrite H.
Qed.

Lemma drop_count_spec (fuel : nat) (a : Z) :
  0 <= a < 2 ^ Z.of_nat fuel ->
  0 <= drop_count fuel a
  /\ a / 10 ^ drop_count fuel a < 10 ^ PREC
  /\ (10 ^ PREC <= a -> 1 <= drop_count fuel a
                       /\ 10 ^ PREC * 10 ^ (drop_count fuel a - 1) <= a).
Proof.
  revert a. induction fuel as [|f IH]; intros a Ha.
  - simpl in Ha. assert (a = 0) by lia. subst.
    split; [simpl; lia|split; [reflexivity|intros H; unfold PREC in H; lia]].
  - simpl drop_count. destruct (a <? 10 ^ PREC) eqn:E.
    + apply Z.ltb_lt in E. rewrite Z.pow_0_r, Z.div_1_r. lia.
    + apply Z.ltb_ge in E.
      assert (Hb : 0 <= a / 10 < 2 ^ Z.of_nat f).
      { split; [apply Z.div_pos; lia|].
        apply Z.div_lt_upper_bound; [lia|].
        rewrite Nat2Z.inj_succ, Z.pow_succ_r in Ha by lia.
        pose proof (Z.pow_nonneg 2 (Z.of_nat f)). lia. }
      destruct (IH (a / 10) Hb) as [H0 [H1 H2]].
      set (d := drop_count f (a / 10)) in *.
      split; [lia|]. split.
      * rewrite Z.pow_add_r, Z.pow_1_r by lia.
        rewrite <- Z.div_div by (try lia; apply pow10_pos; lia). exact H1.
      * intros _. split; [lia|].
        replace (1 + d - 1) with d by lia.
        destruct (Z.le_gt_cases (10 ^ PREC) (a / 10)) as [Hle|Hgt].
        -- destruct (H2 Hle) as [Hd Hm].
           assert (E10 : 10 ^ d = 10 * 10 ^ (d - 1))
             by (rewrite <- Z.pow_succ_r by lia; f_equal; lia).
           rewrite E10.
           pose proof (Z.mul_div_le a 10 ltac:(lia)). nia.
        -- assert (d = 0) by (apply drop_count_small; lia).
           rewrite H, Z.pow_0_r. lia.
Qed.

Lemma excess_digits_spec (a : Z) :
  10 ^ PREC <= a ->
  let d := excess_digits a in
  1 <= d /\ a / 10 ^ d < 10 ^ PREC /\ 10 ^ PREC * 10 ^ (d - 1) <= a.
Proof.
  intros Ha. unfold excess_digits.
  assert (Hpos : 0 < a) by (unfold PREC in *; lia).
  destruct (drop_count_spec (Z.to_nat (Z.log2 a + 1)) a) as [H0 [H1 H2]].
  - split; [lia|]. rewrite Z2Nat.id by (pose proof (Z.log2_nonneg a); lia).
    destruct (Z.log2_spec a Hpos) as [_ Hlt]. rewrite <- Z.add_1_r in Hlt. exact Hlt.
  - destruct (H2 Ha). simpl. lia.
Qed.


Lemma context_round_nonneg (x : dec) : 0 <= coef x -> 0 <= coef (context_round x).
Proof.
  destruct x as [c e]. cbn [coef]. intros Hc. unfold context_round. cbn [coef dexp].
  destruct (Z.abs c <? 10 ^ PREC); [exact Hc|].
  assert (0 <= div_half_even (Z.abs c) (10 ^ excess_digits (Z.abs c))).
  { apply div_half_even_nonneg; [lia|apply Z.pow_pos_nonneg; [lia|]].
    unfold excess_digits. apply drop_count_spec.
    split; [lia|]. destruct (Z.eq_dec c 0) as [->|Hn]; [simpl; lia|].
    rewrite Z2Nat.id by (pose proof (Z.log2_nonneg (Z.abs c)); lia).
    destruct (Z.log2_spec (Z.abs c) ltac:(lia)) as [_ Hlt].
    rewrite <- Z.add_1_r in Hlt. exact Hlt. }
  pose proof (Z.sgn_nonneg c). destruct (_ =? _); cbn [coef].
  - apply Z.mul_nonneg_nonneg; [lia|]. apply Z.div_pos; lia.
  - apply Z.mul_nonneg_nonneg; lia.
Qed.

Lemma context_round_bound (x : dec) : Z.abs (coef (context_round x)) < 10 ^ PREC.
Proof.
  destruct x as [c e]. unfold context_round. cbn [coef dexp].
  destruct (Z.abs c <? 10 ^ PREC) eqn:E; [apply Z.ltb_lt in E; exact E|].
  apply Z.ltb_ge in E.
  destruct (excess_digits_spec (Z.abs c) E) as [Hd [Hq _]].
  set (d := excess_digits (Z.abs c)) in *.
  assert (HD : 0 < 10 ^ d) by (apply pow10_pos; lia).
  set (q := div_half_even (Z.abs c) (10 ^ d)).
  assert (Hq' : 0 <= q <= 10 ^ PREC).
  { pose proof (Z.div_pos (Z.abs c) (10 ^ d) ltac:(lia) HD).
    unfold q. destruct (div_half_even_cases (Z.abs c) (10 ^ d) HD) as [->|[-> _]]; lia. }
  assert (Hs : Z.abs (Z.sgn c) = 1)
    by (destruct c; [unfold PREC in E; simpl in E; lia|reflexivity|reflexivity]).
  destruct (q =? 10 ^ PREC) eqn:Eq; cbn [coef]; rewrite Z.abs_mul, Hs, Z.mul_1_l.
  - apply Z.eqb_eq in Eq. rewrite Eq. unfold PREC. reflexivity.
  - apply Z.eqb_neq in Eq. rewrite Z.abs_eq by lia. lia.
Qed.



End RoundingFacts.

(** Sign and order facts for Decimal [+] and [-]. *)
Module DecimalOrder.
Import PyDecimal RoundingFacts DecimalFacts.
Local Open Scope Z_scope.

Lemma scaled_shift (x : dec) (m m' : Z) :
  m <= m' -> m' <= dexp x -> scaled x m = scaled x m' * 10 ^ (m' - m).
Proof.
  intros H1 H2. unfold scaled. rewrite <- Z.mul_assoc, <- Z.pow_add_r by lia.
  f_equal. f_equal. lia.
Qed.

Lemma compare_at (x y : dec) (m : Z) :
  m <= dexp x -> m <= dexp y -> compare x y = Z.compare (scaled x m) (scaled y m).
Proof.
  intros Hx Hy. unfold compare.
  rewrite (scaled_shift x m (Z.min (dexp x) (dexp y))) by lia.
  rewrite (scaled_shift y m (Z.min (dexp x) (dexp y))) by lia.
  rewrite <- Zmult_compare_compat_r; [reflexivity|]. apply Z.lt_gt, pow10_pos. lia.
Qed.

Lemma scaled_nonneg (x : dec) (m : Z) : 0 <= coef x -> 0 <= scaled x m.
Proof. intros H. unfold scaled. apply Z.mul_nonneg_nonneg; [exact H|apply Z.pow_nonneg; lia]. Qed.

Lemma add_nonneg (x y : dec) : 0 <= coef x -> 0 <= coef y -> 0 <= coef (add x y).
Proof.
  intros Hx Hy. unfold add. apply context_round_nonneg. cbn [coef].
  pose proof (scaled_nonneg x (Z.min (dexp x) (dexp y)) Hx).
  pose proof (scaled_nonneg y (Z.min (dexp x) (dexp y)) Hy). lia.
Qed.

Lemma sub_nonneg (x y : dec) : ltb x y = false -> 0 <= coef (sub x y).
Proof.
  unfold ltb, compare, sub, add. cbn [dexp neg]. intros H.
  apply context_round_nonneg. cbn [coef].
  assert (scaled (neg y) (Z.min (dexp x) (dexp y)) = - scaled y (Z.min (dexp x) (dexp y)))
    by (unfold scaled, neg; cbn [coef dexp]; ring).
  rewrite H0.
  destruct (Z.compare_spec (scaled x (Z.min (dexp x) (dexp y)))
                           (scaled y (Z.min (dexp x) (dexp y)))); [lia|discriminate|lia].
Qed.

Lemma zero_lt_pos (a : dec) (m : Z) :
  ltb zero a = true -> m <= dexp a -> 0 < scaled a m.
Proof.
  unfold ltb. rewrite (compare_at zero a (Z.min 0 (dexp a))) by (cbn; lia).
  intros H Hm. unfold scaled in *. cbn [coef dexp] in *. rewrite Z.mul_0_l in H.
  destruct (0 ?= coef a * 10 ^ (dexp a - Z.min 0 (dexp a))) eqn:E; try discriminate.
  apply Z.compare_lt_iff in E.
  pose proof (pow10_pos (dexp a - Z.min 0 (dexp a)) ltac:(lia)).
  pose proof (pow10_pos (dexp a - m) ltac:(lia)).
  rewrite Z.compare_lt_iff in E.
  assert (0 < coef a) by (apply (Z.mul_pos_cancel_r _ _ H0); exact E).
  apply Z.mul_pos_pos; assumption.
Qed.


End DecimalOrder.

(** Symbolic execution of the service methods: unfold the monad and the
    Redis primitives, then split on the first stuck test. *)
Module LedgerFacts.
Import PyDecimal Validators Ledger Properties.
Local Open Scope Z_scope.

Ltac unfold_ledger :=
  cbv beta iota zeta delta [bind ret raise check redis_call reraise_as r_get r_set
    r_hgetall r_hupdate r_hmset r_expire r_xadd_log r_xadd_adjustment r_hincrby get_now
    get_today get_pricing get_decode_responses get_float_str uuid4 authenticate
    calculate_cost calculate_cost_body store_reservation GetExchangeRates
    Charge Reserve Commit GetBalance AdjustBalance get_rate lookup_reservation alive
    set_balances set_reservations set_billing_log set_adjustments set_usage set_now
    set_uuids set_faults set_status set_actual_cost set_input_actual set_output_actual
    with_expiry];
  cbn [balances reservations billing_log adjustments usage pricing rates now today uuids
       jwt_ok decode_responses float_str faults fst snd default
       r_user_id r_model r_endpoint r_input_tokens r_output_tokens r_estimated_cost
       r_status r_created_at r_actual_cost r_input_tokens_actual r_output_tokens_actual
       r_expires_at];
  rewrite ?lookup_insert_eq;
  cbn [r_user_id r_model r_endpoint r_input_tokens r_output_tokens r_estimated_cost
       r_status r_created_at r_actual_cost r_input_tokens_actual r_output_tokens_actual
       r_expires_at].

Ltac has_no_match t :=
  lazymatch t with
  | context [match _ with _ => _ end] => fail
  | _ => idtac
  end.

Ltac split_first :=
  match goal with
  | |- context [match ?x with _ => _ end] =>
      has_no_match x;
      first [ match goal with E : x = _ |- _ => rewrite E end | destruct x eqn:? ]
  end.

Ltac run_service := unfold_ledger; repeat (split_first; unfold_ledger).

Lemma nonneg_insert (w : world) (k : string) (v : dec) :
  nonneg_balances w -> 0 <= coef v -> map_Forall (fun _ v => 0 <= coef v) (<[k := v]> (balances w)).
Proof. intros Hw Hv. apply map_Forall_insert_2; assumption. Qed.

Lemma nonneg_default (w : world) (k : string) :
  nonneg_balances w -> 0 <= coef (default zero (balances w !! k)).
Proof.
  intros Hw. destruct (balances w !! k) eqn:E; cbn; [apply (Hw k d E)|lia].
Qed.

Lemma ltb_zero_coef (a : dec) : ltb zero a = true -> 0 <= coef a.
Proof.
  intros H. pose proof (DecimalOrder.zero_lt_pos a (dexp a) H ltac:(lia)).
  unfold scaled in H0. rewrite Z.sub_diag, Z.pow_0_r, Z.mul_1_r in H0. lia.
Qed.

Lemma amount_ok_pos (a : dec) : amount_ok a = true -> ltb zero a = true.
Proof. unfold amount_ok. intros H. apply andb_true_iff in H. apply H. Qed.

Ltac close_nonneg :=
  unfold nonneg_balances in *; cbn [balances] in *;
  first
    [ assumption
    | apply map_Forall_insert_2; [|assumption];
      first
        [ apply DecimalOrder.sub_nonneg; apply negb_true_iff; assumption
        | apply DecimalOrder.add_nonneg;
          [ first [ match goal with
                    | Hw : map_Forall _ (balances ?w), E : balances ?w !! _ = Some _ |- _ =>
                        exact (Hw _ _ E)
                    end
                  | cbn; lia ]
          | apply ltb_zero_coef, amount_ok_pos; assumption ] ] ].

Lemma Charge_nonneg (ctx : context) (req : charge_request) (w : world) :
  nonneg_balances w -> nonneg_balances (snd (Charge ctx req w)).
Proof. intros Hw. run_service; close_nonneg. Qed.

Lemma AdjustBalance_nonneg (req : adjust_request) (w : world) :
  nonneg_balances w -> nonneg_balances (snd (AdjustBalance req w)).
Proof. intros Hw. run_service; close_nonneg. Qed.

(** [calculate_cost] always raises, so Reserve and Commit never reach a
    write of their own, and GetBalance raises at [exchange_stub]. *)
Lemma Reserve_fails (ctx : context) (req : reserve_request) (w : world) :
  exists e w', Reserve ctx req w = (Err e, w') /\ balances w' = balances w.
Proof. destruct w. run_service; eexists _, _; split; reflexivity. Qed.

Lemma Commit_fails (ctx : context) (req : commit_request) (w : world) :
  exists e fs, Commit ctx req w = (Err e, set_faults w fs).
Proof.
  destruct w. run_service; eexists _, _; reflexivity.
Qed.

Lemma GetBalance_fails (req : balance_request) (w : world) :
  exists e fs, GetBalance req w = (Err e, set_faults w fs).
Proof.
  destruct w. run_service; eexists _, _; reflexivity.
Qed.

End LedgerFacts.

(* ================================================================== *)
(** ** Effects of the ledger operations                               *)
(* ================================================================== *)

Module LedgerEffects.
Import PyDecimal Validators Ledger Properties LedgerFacts.
Local Open Scope Z_scope.

Lemma unauthenticated_refused (ctx : context) (w : world) :
  (forall t, find_authorization (metadata ctx) = Some t -> t = "" \/ jwt_ok w t = false) ->
  (forall rq, Charge ctx rq w = (Err AuthenticationError, w))
  /\ (forall rq, Reserve ctx rq w = (Err AuthenticationError, w))
  /\ (forall rq, Commit ctx rq w = (Err AuthenticationError, w)).
Proof.
  intros H.
  assert (Ha : authenticate ctx w = (Err AuthenticationError, w)).
  { unfold authenticate. destruct (find_authorization (metadata ctx)) as [t|]; [|reflexivity].
    destruct (H t eq_refl) as [->|Hj]; [reflexivity|].
    destruct (String.eqb t ""); [reflexivity|]. rewrite Hj. reflexivity. }
  repeat split; intros rq; unfold Charge, Reserve, Commit, bind at 1; rewrite Ha; reflexivity.
Qed.


End LedgerEffects.

(* ================================================================== *)
(** ** [server.py]'s service                                          *)
(* ================================================================== *)

Module ServerFacts.
Import PyDecimal Validators Ledger Properties LedgerFacts.
Local Open Scope Z_scope.

(** A call that never returns a value. *)
Definition never_ok {A} (m : Server.SM A) : Prop :=
  forall s a s', m s <> (Server.Returns (Ok a), s').

Lemma sbind_never_ok_l {A B} (m : Server.SM A) (k : A -> Server.SM B) :
  never_ok m -> never_ok (Server.sbind m k).
Proof.
  intros H s b s'. unfold Server.sbind. specialize (H s).
  destruct (m s) as [[[a|e]|] s1] eqn:E; [exfalso; exact (H a s1 eq_refl)|congruence|congruence].
Qed.

Lemma sbind_never_ok_r {A B} (m : Server.SM A) (k : A -> Server.SM B) :
  (forall a, never_ok (k a)) -> never_ok (Server.sbind m k).
Proof.
  intros H s b s'. unfold Server.sbind.
  destruct (m s) as [[[a|e]|] s1]; [apply H|congruence|congruence].
Qed.

Lemma lift_raise_never_ok {A} (e : err) : never_ok (Server.lift (A := A) (raise e)).
Proof. intros s a s'. unfold Server.lift, raise. cbn. congruence. Qed.

(** [log_transaction] waits on the lock it already holds. *)
Lemma log_transaction_blocked (tx : string) (a : option dec) (ok : bool) (t : Z)
    (m : Monitoring.monitor) :
  exists m', Monitoring.log_transaction tx a ok t m = Monitoring.Blocked m'.
Proof.
  unfold Monitoring.log_transaction, Monitoring.check_alerts.
  destruct (Monitoring.lock_held m); cbn; eauto.
Qed.

Lemma log_never_ok (tx : string) (a : option dec) (ok : bool) :
  never_ok (Server.monitoring (Monitoring.log_transaction tx a ok)).
Proof.
  intros s b s'. unfold Server.monitoring.
  destruct (log_transaction_blocked tx a ok (now (fst s)) (snd s)) as [m' ->]. congruence.
Qed.

Ltac never_ok_tac :=
  repeat (cbv zeta; first
    [ apply sbind_never_ok_l, log_never_ok
    | apply sbind_never_ok_r; intro
    | apply lift_raise_never_ok
    | match goal with |- never_ok (match ?x with _ => _ end) => destruct x end ]).

Lemma Charge_never_ok (ctx : context) (req : charge_request) : never_ok (Server.Charge ctx req).
Proof. unfold Server.Charge. never_ok_tac. Qed.

Lemma Reserve_never_ok (ctx : context) (req : reserve_request) : never_ok (Server.Reserve ctx req).
Proof. unfold Server.Reserve. never_ok_tac. Qed.

Lemma Commit_never_ok (ctx : context) (req : commit_request) : never_ok (Server.Commit ctx req).
Proof. unfold Server.Commit. never_ok_tac. Qed.

Lemma AdjustBalance_never_ok (req : adjust_request) : never_ok (Server.AdjustBalance req).
Proof. unfold Server.AdjustBalance. never_ok_tac. Qed.

Ltac unfold_server :=
  repeat progress (cbv beta iota zeta delta [Server.sbind Server.sret Server.lift Server.monitoring
    Server.Charge Server.Reserve Server.Commit Server.GetBalance Server.AdjustBalance
    Server.store_reservation Server.RESERVATION_TTL]; unfold_ledger).

Ltac run_server := unfold_server; repeat (split_first; unfold_server).

Lemma GetBalance_balances (req : balance_request) (s : Server.state) :
  balances (fst (snd (Server.GetBalance req s))) = balances (fst s).
Proof. destruct s as [[] m]. run_server; reflexivity. Qed.

End ServerFacts.

(* ================================================================== *)
(** ** Payment endpoints                                              *)
(* ================================================================== *)

Module HttpFacts.
Import Validators Ledger Http DecimalFacts.
Local Open Scope Z_scope.

Lemma ltb_Q (x y : dec) : ltb x y = true <-> (to_Q x < to_Q y)%Q.
Proof.
  set (m := Z.min (dexp x) (dexp y)).
  rewrite <- (to_Q_scaled x m) by (unfold m; lia).
  rewrite <- (to_Q_scaled y m) by (unfold m; lia).
  unfold to_Q; cbn [coef dexp].
  rewrite Qmult_lt_r by (apply Qpower_0_lt; reflexivity).
  rewrite <- Zlt_Qlt. unfold ltb, compare. fold m.
  destruct (Z.compare_spec (scaled x m) (scaled y m)); split; intros; try lia; discriminate.
Qed.

Lemma amount_ok_Q (a : dec) :
  amount_ok a = true <-> (0 < to_Q a /\ to_Q a < inject_Z 1000000)%Q.
Proof.
  unfold amount_ok. rewrite andb_true_iff, !ltb_Q.
  assert (H0 : (to_Q zero == 0)%Q) by reflexivity.
  assert (H1 : (to_Q (Dec 1000000 0) == inject_Z 1000000)%Q) by reflexivity.
  rewrite H0, H1. reflexivity.
Qed.

Lemma to_Q_pos_coef (a : dec) : (0 < to_Q a)%Q -> 0 < coef a.
Proof.
  unfold to_Q. intros H. destruct (Z.lt_ge_cases 0 (coef a)) as [Hc|Hc]; [exact Hc|].
  exfalso. apply (Qlt_not_le _ _ H).
  rewrite <- (Qmult_0_l ((10 # 1) ^ dexp a)).
  apply Qmult_le_compat_r; [change 0%Q with (inject_Z 0); rewrite <- Zle_Qle; exact Hc|].
  apply Qpower_0_le. discriminate.
Qed.

Lemma pow10_Q_neg (k : Z) : 0 <= k -> ((10 # 1) ^ (- k) == / inject_Z (10 ^ k))%Q.
Proof. intros Hk. rewrite Qpower_opp, Q10_pow_nonneg by exact Hk. reflexivity. Qed.

Lemma int_trunc_floor (c e : Z) :
  0 < c ->
  (inject_Z (int_trunc (Dec c e)) <= to_Q (Dec c e)
   /\ to_Q (Dec c e) < inject_Z (int_trunc (Dec c e)) + 1)%Q.
Proof.
  intros Hc. unfold int_trunc, to_Q; cbn [coef dexp].
  destruct (0 <=? e) eqn:He.
  - apply Z.leb_le in He. rewrite Q10_pow_nonneg by exact He. rewrite <- inject_Z_mult.
    split; [apply Qle_refl|]. change 1%Q with (inject_Z 1).
    rewrite <- inject_Z_plus, <- Zlt_Qlt. lia.
  - apply Z.leb_gt in He.
    pose proof (RoundingFacts.pow10_pos (- e) ltac:(lia)) as Hp.
    replace e with (- (- e)) at 2 3 by lia.
    rewrite pow10_Q_neg by lia. change (inject_Z c * / inject_Z (10 ^ (- e)))%Q
      with (inject_Z c / inject_Z (10 ^ (- e)))%Q.
    rewrite Z.quot_div_nonneg by lia.
    assert (HP : (0 < inject_Z (10 ^ (- e)))%Q) by (change 0%Q with (inject_Z 0); rewrite <- Zlt_Qlt; exact Hp).
    pose proof (Z.mul_div_le c (10 ^ (- e)) Hp).
    pose proof (Z.mul_succ_div_gt c (10 ^ (- e)) Hp).
    split.
    + apply Qle_shift_div_l; [exact HP|]. rewrite <- inject_Z_mult, <- Zle_Qle. lia.
    + apply Qlt_shift_div_r; [exact HP|]. change 1%Q with (inject_Z 1).
      rewrite <- inject_Z_plus, <- inject_Z_mult, <- Zlt_Qlt. lia.
Qed.

Lemma quot_abs_le (n d : Z) : 1 < d -> Z.abs (Z.quot n d) <= Z.abs n.
Proof.
  intros Hd. rewrite <- Z.quot_abs by lia. rewrite (Z.abs_eq d) by lia.
  destruct (Z.eq_dec (Z.abs n) 0) as [E|E]; [rewrite E; reflexivity|].
  pose proof (Z.quot_lt (Z.abs n) d ltac:(lia) Hd). lia.
Qed.

Lemma div_100_value (n : Z) :
  Z.abs n < 10 ^ PREC -> (to_Q (div_100 n) == inject_Z n / inject_Z 100)%Q.
Proof.
  intros Hn. unfold div_100.
  destruct (Z.rem n 100 =? 0) eqn:E1; [|destruct (Z.rem n 10 =? 0) eqn:E2].
  - apply Z.eqb_eq in E1.
    rewrite context_round_small by (cbn [coef]; pose proof (quot_abs_le n 100); lia).
    unfold to_Q; cbn [coef dexp]. rewrite Qmult_1_r.
    pose proof (Z.quot_rem' n 100). rewrite E1, Z.add_0_r in H.
    rewrite H at 2. rewrite inject_Z_mult. field; try discriminate.
  - apply Z.eqb_eq in E2.
    rewrite context_round_small by (cbn [coef]; pose proof (quot_abs_le n 10); lia).
    unfold to_Q; cbn [coef dexp].
    pose proof (Z.quot_rem' n 10). rewrite E2, Z.add_0_r in H.
    rewrite H at 2. rewrite inject_Z_mult. change ((10 # 1) ^ (-1))%Q with (1 # 10)%Q.
    field; try discriminate.
  - rewrite context_round_small by exact Hn.
    unfold to_Q; cbn [coef dexp]. change ((10 # 1) ^ (-2))%Q with (1 # 100)%Q.
    field; try discriminate.
Qed.

Lemma create_checkout_floor (u : string) (a : dec) (n : Z) :
  create_checkout u a = Ok n -> Z.abs (coef a) * 100 < 10 ^ PREC ->
  (inject_Z n <= to_Q a * inject_Z 100 /\ to_Q a * inject_Z 100 < inject_Z n + 1)%Q
  /\ (to_Q (div_100 n) <= to_Q a /\ to_Q a < to_Q (div_100 n) + (1 # 100))%Q.
Proof.
  unfold create_checkout. destruct (user_id_ok u); [|discriminate].
  destruct (amount_ok a) eqn:Ha; [|discriminate]. cbn. intros H Hs; injection H as <-.
  apply amount_ok_Q in Ha as [Hpos Hlt]. pose proof (to_Q_pos_coef a Hpos) as Hc.
  unfold mul, of_int. cbn [coef dexp]. rewrite context_round_small by (cbn [coef]; lia).
  rewrite Z.add_0_r.
  destruct (int_trunc_floor (coef a * 100) (dexp a) ltac:(lia)) as [H1 H2].
  assert (Ha100 : (to_Q (Dec (coef a * 100) (dexp a)) == to_Q a * inject_Z 100)%Q)
    by (unfold to_Q; cbn [coef dexp]; rewrite inject_Z_mult; ring).
  rewrite Ha100 in H1, H2.
  set (n := int_trunc (Dec (coef a * 100) (dexp a))) in *.
  split; [split; assumption|].
  assert (Hn : Z.abs n < 10 ^ PREC).
  { assert (Hup : (inject_Z n < inject_Z 100000000)%Q).
    { eapply Qle_lt_trans; [exact H1|].
      change (inject_Z 100000000) with (inject_Z 1000000 * inject_Z 100)%Q.
      apply Qmult_lt_r; [reflexivity|exact Hlt]. }
    assert (Hlo : (inject_Z (-1) < inject_Z n)%Q).
    { assert (H0 : (0 < to_Q a * inject_Z 100)%Q)
        by (rewrite <- (Qmult_0_l (inject_Z 100)); apply Qmult_lt_r; [reflexivity|exact Hpos]).
      apply Qplus_lt_l with (z := 1%Q). change (inject_Z (-1) + 1)%Q with 0%Q.
      eapply Qlt_trans; [exact H0|exact H2]. }
    rewrite <- Zlt_Qlt in Hup, Hlo. unfold PREC. lia. }
  rewrite (div_100_value n Hn). split.
  - apply Qle_shift_div_r; [reflexivity|exact H1].
  - assert (Heq : (inject_Z n / inject_Z 100 + (1 # 100) == (inject_Z n + 1) / inject_Z 100)%Q)
      by (field; discriminate).
    rewrite Heq.
    apply Qlt_shift_div_l; [reflexivity|exact H2].
Qed.

End HttpFacts.

Module WebhookFacts.
Import Validators Ledger Properties LedgerFacts Http HttpFacts RoundingFacts DecimalOrder.
Local Open Scope Z_scope.

Ltac run_http :=
  cbv beta iota zeta delta [stripe_webhook wbind wret wraise lift r_xadd_deposit];
  run_service.

Lemma stripe_webhook_ok (ev : event) (u : string) (w : world) (ds : list deposit) r w' ds' :
  ev_type ev = "checkout.session.completed" -> ev_user_id ev = Some u ->
  stripe_webhook (Ok ev) (w, ds) = (Ok r, (w', ds')) ->
  let a := div_100 (ev_amount_total ev) in
  user_id_ok u = true
  /\ balances w' = <[balance_key u := add (default zero (balances w !! balance_key u)) a]> (balances w)
  /\ ds' = ds ++ [Deposit u (float_str w a) "stripe" (now w)]
  /\ reservations w' = reservations w /\ billing_log w' = billing_log w
  /\ adjustments w' = adjustments w /\ usage w' = usage w.
Proof.
  intros Ht Hu. destruct w. unfold stripe_webhook. rewrite Ht, Hu. cbn [String.eqb Ascii.eqb Bool.eqb].
  run_http.
  all: intros H; try discriminate; inversion H; subst; clear H.
  all: cbn zeta; cbn [balances reservations billing_log adjustments usage now float_str].
  all: repeat match goal with E : _ !! _ = _ |- _ => rewrite E end; cbn [default].
  all: split; [apply negb_false_iff; assumption|].
  all: repeat split.
Qed.

Lemma stripe_webhook_err (v : result event) (w : world) (ds : list deposit) e w' ds' :
  stripe_webhook v (w, ds) = (Err e, (w', ds')) ->
  ds' = ds /\ reservations w' = reservations w /\ billing_log w' = billing_log w
  /\ adjustments w' = adjustments w /\ usage w' = usage w
  /\ (balances w' = balances w
      \/ (e = InternalError /\ exists ev u, v = Ok ev /\ ev_user_id ev = Some u
           /\ balances w' = <[balance_key u := add (default zero (balances w !! balance_key u))
                                                  (div_100 (ev_amount_total ev))]> (balances w))).
Proof.
  destruct w. destruct v as [ev|e0].
  - unfold stripe_webhook.
    destruct (String.eqb (ev_type ev) "checkout.session.completed"); [|unfold wret; discriminate].
    destruct (ev_user_id ev) as [u|] eqn:Hu; [|unfold wraise; intros H; inversion H; subst; auto 10].
    run_http.
    all: intros H; try discriminate; inversion H; subst; clear H.
    all: cbn [balances reservations billing_log adjustments usage].
    all: repeat split; try (left; reflexivity).
    all: right; split; [reflexivity|]; exists ev, u; repeat split; try assumption.
    all: repeat match goal with E : _ !! _ = _ |- _ => rewrite E end; reflexivity.
  - unfold stripe_webhook, wraise. intros H; inversion H; subst; auto 10.
Qed.

Lemma stripe_webhook_run (ev : event) (u : string) (w : world) (ds : list deposit) :
  ev_type ev = "checkout.session.completed" -> ev_user_id ev = Some u -> user_id_ok u = true ->
  decode_responses w = true -> faults w = [] ->
  let a := div_100 (ev_amount_total ev) in
  stripe_webhook (Ok ev) (w, ds)
  = (Ok tt, (set_balances w (<[balance_key u := add (default zero (balances w !! balance_key u)) a]> (balances w)),
             ds ++ [Deposit u (float_str w a) "stripe" (now w)])).
Proof.
  intros Ht Hu Hok. destruct w. cbn [decode_responses faults]. intros -> ->.
  unfold stripe_webhook. rewrite Ht, Hu, Hok. cbn [String.eqb Ascii.eqb Bool.eqb].
  assert (Hne : String.eqb u "" = false).
  { destruct u; [discriminate|reflexivity]. }
  rewrite Hne. cbn [negb]. cbv zeta. run_http.
  all: repeat match goal with E : _ !! _ = _ |- _ => rewrite E end; reflexivity.
Qed.

Lemma div_100_nonneg (n : Z) : 0 <= n -> 0 <= coef (div_100 n).
Proof.
  intros Hn. unfold div_100.
  repeat case_match; apply context_round_nonneg; cbn [coef];
    first [apply Z.quot_pos; lia | lia].
Qed.

Lemma stripe_webhook_nonneg (v : result event) (w : world) (ds : list deposit) :
  nonneg_balances w -> (forall ev, v = Ok ev -> 0 <= ev_amount_total ev) ->
  nonneg_balances (fst (snd (stripe_webhook v (w, ds)))).
Proof.
  intros Hw Hv. destruct (stripe_webhook v (w, ds)) as [r [w' ds']] eqn:E. cbn [fst snd].
  destruct r as [x|e].
  - destruct v as [ev|e0]; [|unfold stripe_webhook, wraise in E; discriminate].
    destruct (String.eqb (ev_type ev) "checkout.session.completed") eqn:Ht.
    + pose proof Ht as Ht'. apply String.eqb_eq in Ht'.
      destruct (ev_user_id ev) as [u|] eqn:Hu; [|unfold stripe_webhook, wraise in E; rewrite Ht, Hu in E; discriminate].
      destruct (stripe_webhook_ok ev u w ds x w' ds' Ht' Hu E) as (_ & Hb & _).
      unfold nonneg_balances. rewrite Hb. apply nonneg_insert; [exact Hw|].
      apply add_nonneg; [apply nonneg_default, Hw|]. apply div_100_nonneg, (Hv ev eq_refl).
    + unfold stripe_webhook in E. rewrite Ht in E. unfold wret in E. inversion E; subst. exact Hw.
  - destruct (stripe_webhook_err v w ds e w' ds' E) as (_ & _ & _ & _ & _ & [Hb|(_ & ev & u & -> & Hu & Hb)]).
    + unfold nonneg_balances. rewrite Hb. exact Hw.
    + unfold nonneg_balances. rewrite Hb. apply nonneg_insert; [exact Hw|].
      apply add_nonneg; [apply nonneg_default, Hw|]. apply div_100_nonneg, (Hv ev eq_refl).
Qed.

Lemma stripe_webhook_undecoded (ev : event) (u : string) (w : world) (ds : list deposit) (v : dec) :
  ev_type ev = "checkout.session.completed" -> ev_user_id ev = Some u -> user_id_ok u = true ->
  decode_responses w = false -> balances w !! balance_key u = Some v ->
  exists w', stripe_webhook (Ok ev) (w, ds) = (Err InternalError, (w', ds))
    /\ balances w' = balances w.
Proof.
  intros Ht Hu Hok. destruct w. cbn [decode_responses balances]. intros Hd Hb.
  unfold stripe_webhook. rewrite Ht, Hu, Hok. cbn [String.eqb Ascii.eqb Bool.eqb].
  assert (Hne : String.eqb u "" = false).
  { destruct u; [discriminate|reflexivity]. }
  rewrite Hne. cbn [negb]. cbv zeta. run_http.
  all: eexists; split; reflexivity.
Qed.


Lemma stripe_webhook_replay (ev : event) (u : string) (w : world) (ds : list deposit) :
  ev_type ev = "checkout.session.completed" -> ev_user_id ev = Some u -> user_id_ok u = true ->
  decode_responses w = true -> faults w = [] ->
  let a := div_100 (ev_amount_total ev) in
  let old := default zero (balances w !! balance_key u) in
  let dep := Deposit u (float_str w a) "stripe" (now w) in
  exists w1 w2,
    stripe_webhook (Ok ev) (w, ds) = (Ok tt, (w1, ds ++ [dep]))
    /\ stripe_webhook (Ok ev) (w1, ds ++ [dep]) = (Ok tt, (w2, ds ++ [dep; dep]))
    /\ balances w2 !! balance_key u = Some (add (add old a) a).
Proof.
  intros Ht Hu Hok Hd Hf a old dep.
  eexists _, _. split; [apply (stripe_webhook_run ev u w ds Ht Hu Hok Hd Hf)|].
  split.
  - rewrite (stripe_webhook_run ev u (set_balances w _) _ Ht Hu Hok)
      by (destruct w; assumption).
    rewrite <- app_assoc. destruct w; reflexivity.
  - destruct w; cbn [balances set_balances]. rewrite !lookup_insert_eq. reflexivity.
Qed.

End WebhookFacts.

(* ================================================================== *)
(** * Claims                                                           *)
(* ================================================================== *)

Import CostSpec DecimalFacts CostFacts.

(** C4 (as stated): for every chat price pair the cost is the exact
    formula quantized half-up to 10^-5. This fails: the Decimal sum is
    first rounded to 28 significant digits, and with a chat_output price
    of 1e27 and a chat_input price of 4.9999 per million tokens, one
    input and one output token cost 10^21 + 0.00001 where the exact
    formula rounds to 10^21. *)
Lemma calculate_cost_chat_formula_cex :
  ~ (forall (pricing : pricing_table) (model : string) (mp : model_pricing)
            (p_in p_out : dec) (input_tokens output_tokens : Z),
       pricing !! model = Some mp -> chat_input mp = Some p_in ->
       chat_output mp = Some p_out ->
       (0 < input_tokens)%Z -> (0 <= output_tokens)%Z ->
       calculate_cost pricing model "chat" input_tokens output_tokens
       = Ok (Dec (quantize_5_spec
                   (chat_cost_exact (to_Q p_in) (to_Q p_out) input_tokens output_tokens))
                 (-5))).
Proof.
  intros H.
  pose (mp := MP (Some (Dec 49999 (-4))) (Some (Dec 1 27)) None).
  specialize (H {["m" := mp]} "m" mp (Dec 49999 (-4)) (Dec 1 27) 1%Z 1%Z
                eq_refl eq_refl eq_refl ltac:(lia) ltac:(lia)).
  vm_compute in H. discriminate H.
Qed.

(** C4 (amended): when the two products and their sum fit Python's
    28-digit Decimal context and the quantized cost fits too, the cost of
    the chat endpoint is (input_tokens * chat_input + output_tokens *
    chat_output) / 1_000_000 and that of the embed endpoint
    input_tokens * embed / 1_000_000, quantized half-up to 10^-5: the
    result has exponent -5, and 0.000005 rounds to 0.00001. *)
Theorem calculate_cost_formula :
  (forall (pricing : pricing_table) (model : string) (mp : model_pricing)
          (p_in p_out : dec) (input_tokens output_tokens : Z),
     pricing !! model = Some mp -> chat_input mp = Some p_in ->
     chat_output mp = Some p_out ->
     (Z.abs (coef p_in) < 10 ^ PREC)%Z -> (Z.abs (coef p_out) < 10 ^ PREC)%Z ->
     (Z.abs (input_tokens * coef p_in) < 10 ^ PREC)%Z ->
     (Z.abs (output_tokens * coef p_out) < 10 ^ PREC)%Z ->
     (Z.abs (input_tokens * coef p_in * 10 ^ (dexp p_in - Z.min (dexp p_in) (dexp p_out))
             + output_tokens * coef p_out * 10 ^ (dexp p_out - Z.min (dexp p_in) (dexp p_out)))
        < 10 ^ PREC)%Z ->
     (Z.abs (quantize_5_spec (chat_cost_exact (to_Q p_in) (to_Q p_out) input_tokens output_tokens))
        < 10 ^ PREC)%Z ->
     calculate_cost pricing model "chat" input_tokens output_tokens
     = Ok (Dec (quantize_5_spec
                 (chat_cost_exact (to_Q p_in) (to_Q p_out) input_tokens output_tokens)) (-5)))
  /\ (forall (pricing : pricing_table) (model : string) (mp : model_pricing)
             (p_embed : dec) (input_tokens output_tokens : Z),
        pricing !! model = Some mp -> embed mp = Some p_embed ->
        (Z.abs (coef p_embed) < 10 ^ PREC)%Z ->
        (Z.abs (input_tokens * coef p_embed) < 10 ^ PREC)%Z ->
        (Z.abs (quantize_5_spec (embed_cost_exact (to_Q p_embed) input_tokens)) < 10 ^ PREC)%Z ->
        calculate_cost pricing model "embed" input_tokens output_tokens
        = Ok (Dec (quantize_5_spec (embed_cost_exact (to_Q p_embed) input_tokens)) (-5)))
  /\ quantize_5 (Dec 5 (-6)) = Some (Dec 1 (-5)).
Proof.
  split; [|split].
  - intros pricing model mp p_in p_out input_tokens output_tokens
      Hm Hi Ho Hpi Hpo Hmi Hmo Hs Hq.
    unfold calculate_cost, calculate_cost_body, get_price. rewrite Hm.
    change (default no_prices (Some mp)) with mp. rewrite Hi, Ho.
    cbn -[add mul div_million of_int quantize_5].
    rewrite quantize_5_correct.
    + do 2 f_equal. apply quantize_5_spec_comp. now apply chat_total_exact.
    + rewrite (quantize_5_spec_comp _ _ (chat_total_exact _ _ _ _ Hpi Hpo Hmi Hmo Hs)).
      exact Hq.
  - intros pricing model mp p_embed input_tokens output_tokens Hm He Hpe Hme Hq.
    unfold calculate_cost, calculate_cost_body, get_price. rewrite Hm.
    change (default no_prices (Some mp)) with mp. rewrite He.
    cbn -[add mul div_million of_int quantize_5].
    rewrite quantize_5_correct.
    + do 2 f_equal. apply quantize_5_spec_comp. now apply embed_total_exact.
    + rewrite (quantize_5_spec_comp _ _ (embed_total_exact _ _ Hpe Hme)). exact Hq.
  - reflexivity.
Qed.

(** Scenario 1 of the testable properties: gpt-4o, 1000 input and 500
    output tokens cost 0.0125; text-embedding-3-large, 10^6 tokens, 0.13. *)
Lemma calculate_cost_formula_witness :
  calculate_cost DEFAULT_PRICING "gpt-4o" "chat" 1000%Z 500%Z = Ok (Dec 1250 (-5))
  /\ calculate_cost DEFAULT_PRICING "text-embedding-3-large" "embed" 1000000%Z 0%Z
     = Ok (Dec 13000 (-5)).
Proof.
  destruct calculate_cost_formula as [Hchat [Hembed _]].
  split.
  - rewrite (Hchat DEFAULT_PRICING "gpt-4o" _ (Dec 50 (-1)) (Dec 150 (-1)) 1000%Z 500%Z
               eq_refl eq_refl eq_refl); vm_compute; reflexivity.
  - rewrite (Hembed DEFAULT_PRICING "text-embedding-3-large" _ (Dec 13 (-2)) 1000000%Z 0%Z
               eq_refl eq_refl); vm_compute; reflexivity.
Defined.

(** C2 (as stated): for a model absent from the pricing table the lookup
    fails. It does not: [get_price] prices gpt-5 (absent from
    [DEFAULT_PRICING]) on the chat endpoint at the defaults. *)
Lemma get_price_unknown_model_cex :
  ~ (forall (pricing : pricing_table) (model endpoint : string),
       pricing !! model = None -> get_price pricing model endpoint = Err PricingError).
Proof.
  intros H.
  specialize (H DEFAULT_PRICING "gpt-5" "chat" ltac:(vm_compute; reflexivity)).
  vm_compute in H. discriminate H.
Qed.

(** C2 (amended): for a model absent from the pricing table the lookup
    does not fail: the chat endpoint gets 10.00 and 30.00 USD per million
    tokens and the embed endpoint 0.13; only an endpoint other than chat
    and embed fails, with [PricingError], whatever the model. *)
Theorem get_price_defaults :
  (forall (pricing : pricing_table) (model endpoint : string),
     pricing !! model = None ->
     get_price pricing model endpoint =
       if String.eqb endpoint "chat" then Ok (ChatPrices (Dec 100 (-7)) (Dec 300 (-7)))
       else if String.eqb endpoint "embed" then Ok (EmbedPrices (Dec 13 (-8)))
       else Err PricingError)
  /\ (forall (pricing : pricing_table) (model endpoint : string),
        endpoint <> "chat" -> endpoint <> "embed" ->
        get_price pricing model endpoint = Err PricingError).
Proof.
  split.
  - intros pricing model endpoint Hm. unfold get_price. rewrite Hm.
    destruct (String.eqb endpoint "chat"); [reflexivity|].
    destruct (String.eqb endpoint "embed"); reflexivity.
  - intros pricing model endpoint Hc He. unfold get_price.
    apply String.eqb_neq in Hc, He. rewrite Hc, He. reflexivity.
Qed.

(** An unknown model on the chat endpoint, and a known model on an
    unknown endpoint. *)
Lemma get_price_defaults_witness :
  get_price DEFAULT_PRICING "gpt-5" "chat" = Ok (ChatPrices (Dec 100 (-7)) (Dec 300 (-7)))
  /\ get_price DEFAULT_PRICING "gpt-4o" "image" = Err PricingError.
Proof.
  destruct get_price_defaults as [Hunknown Hendpoint].
  split.
  - exact (Hunknown DEFAULT_PRICING "gpt-5" "chat" ltac:(vm_compute; reflexivity)).
  - apply Hendpoint; discriminate.
Defined.

Import Validators Ledger Scenarios Properties LedgerFacts.
Local Open Scope Z_scope.

(** C1: every sequence of requests that [billing_core.py]'s service
    accepts as successful, started from non-negative balances, ends with
    non-negative balances, and so does every sequence that [server.py]'s
    service returns from. In [billing_core.py] a Commit never succeeds
    ([calculate_cost] always raises); in [server.py] Charge, Reserve,
    Commit and AdjustBalance never return (their [log_transaction] waits
    on the monitoring lock). A successful Charge or AdjustBalance writes
    a non-negative balance. *)
Theorem accepted_nonneg :
  (forall (ops : list ledger_op) (w w' : world),
     nonneg_balances w -> accepted ops w = Some w' -> nonneg_balances w')
  /\ (forall (ops : list ledger_op) (s s' : Server.state),
        nonneg_balances (fst s) -> Server.accepted ops s = Some s' ->
        nonneg_balances (fst s')).
Proof.
  split.
  - induction ops as [|op ops IH]; intros w w' Hw H; cbn [accepted] in H.
    + injection H as <-. exact Hw.
    + destruct (run_op op w) as [w1|] eqn:E; [|discriminate].
      apply (IH w1 w'); [|exact H].
      destruct op as [ctx req|ctx req|ctx req|req|req|sec]; unfold run_op in E.
      * pose proof (Charge_nonneg ctx req w Hw) as Hn.
        destruct (Charge ctx req w) as [[v|e] w2]; cbn in *; [|discriminate].
        injection E as <-. exact Hn.
      * destruct (Reserve_fails ctx req w) as (e & w2 & Hr & _).
        rewrite Hr in E. discriminate.
      * destruct (Commit_fails ctx req w) as (e & fs & Hc). rewrite Hc in E. discriminate.
      * destruct (GetBalance_fails req w) as (e & fs & Hg). rewrite Hg in E. discriminate.
      * pose proof (AdjustBalance_nonneg req w Hw) as Hn.
        destruct (AdjustBalance req w) as [[v|e] w2]; cbn in *; [|discriminate].
        injection E as <-. exact Hn.
      * injection E as <-. destruct w. exact Hw.
  - induction ops as [|op ops IH]; intros s s' Hs H; cbn [Server.accepted] in H.
    + injection H as <-. exact Hs.
    + destruct (Server.run_op op s) as [s1|] eqn:E; [|discriminate].
      apply (IH s1 s'); [|exact H].
      destruct op as [ctx req|ctx req|ctx req|req|req|sec]; unfold Server.run_op in E.
      * destruct (Server.Charge ctx req s) as [[[v|e]|] s2] eqn:Ec; try discriminate.
        exfalso. exact (ServerFacts.Charge_never_ok ctx req s v s2 Ec).
      * destruct (Server.Reserve ctx req s) as [[[v|e]|] s2] eqn:Ec; try discriminate.
        exfalso. exact (ServerFacts.Reserve_never_ok ctx req s v s2 Ec).
      * destruct (Server.Commit ctx req s) as [[[v|e]|] s2] eqn:Ec; try discriminate.
        exfalso. exact (ServerFacts.Commit_never_ok ctx req s v s2 Ec).
      * pose proof (ServerFacts.GetBalance_balances req s) as Hb.
        destruct (Server.GetBalance req s) as [[[v|e]|] s2]; try discriminate.
        injection E as <-. unfold nonneg_balances. cbn [snd] in Hb. rewrite Hb. exact Hs.
      * destruct (Server.AdjustBalance req s) as [[[v|e]|] s2] eqn:Ec; try discriminate.
        exfalso. exact (ServerFacts.AdjustBalance_never_ok req s v s2 Ec).
      * injection E as <-. destruct s as [[] m]. exact Hs.
Qed.

(** Alice tops up 5 USD and is charged 1 USD in [billing_core.py], and
    reads her balance then waits a minute in [server.py]. *)
Lemma accepted_nonneg_witness :
  let w := deployment (alice_with (Dec 1 0)) [] in
  let ops := [OpAdjustBalance (AdjustReq "alice" (Dec 5 0) "");
              OpCharge authorized (ChargeReq "alice" "gpt-4o" 10 (Dec 1 0))] in
  let w' := match accepted ops w with Some w' => w' | None => w end in
  let sops := [OpGetBalance (BalanceReq "alice"); OpWait 60] in
  let s := (w, Monitoring.initial) in
  let s' := match Server.accepted sops s with Some s' => s' | None => s end in
  nonneg_balances w /\ accepted ops w = Some w' /\ nonneg_balances w'
  /\ Server.accepted sops s = Some s' /\ nonneg_balances (fst s').
Proof.
  intros w ops w' sops s s'.
  assert (Hw : nonneg_balances w) by (apply map_Forall_singleton; cbn; lia).
  assert (H1 : accepted ops w = Some w') by (vm_compute; reflexivity).
  assert (H2 : Server.accepted sops s = Some s') by (vm_compute; reflexivity).
  destruct accepted_nonneg as [Hcore Hserver].
  split; [exact Hw|]. split; [exact H1|]. split; [exact (Hcore ops w w' Hw H1)|].
  split; [exact H2|]. exact (Hserver sops s s' Hw H2).
Defined.



(** C5 (as stated): with valid inputs, an insufficient balance fails
    with [BalanceError], and otherwise the debit and a reserved record
    with a 600-second TTL succeed or fail together. In
    [billing_core.py], [calculate_cost] raises before the balance is
    read: with 0.01 USD or with 10 USD, Reserve fails with the same
    internal error and changes nothing. In [server.py], when Redis fails
    on the [expire] call, Reserve fails with [ReservationError] after
    [hmset] stored the record: it stays, in state reserved and with no
    TTL, while the balance is not debited. *)
Lemma reserve_balance_and_atomicity_cex :
  let rq := ReserveReq "alice" "req-1" "gpt-4o" "chat" 1000 500 in
  let poor := deployment (alice_with (Dec 1 (-2))) [] in
  let rich := deployment (alice_with (Dec 10 0)) [] in
  Reserve authorized rq poor = (Err InternalError, poor)
  /\ Reserve authorized rq rich = (Err InternalError, rich)
  /\ match Server.Reserve authorized rq
             (deployment (alice_with (Dec 10 0)) [false; false; true], Monitoring.initial) with
     | (Server.Returns (Err ReservationError), (w', _)) =>
         balances w' = alice_with (Dec 10 0)
         /\ reservations w' !! "reservation:res:alice:req-1:1700000000"
            = Some (Resv "alice" "gpt-4o" "chat" 1000 500 (Dec 1250 (-5)) Reserved 1700000000
                      None None None None)
     | _ => False
     end.
Proof.
  split; [vm_compute; reflexivity|]. split; [vm_compute; reflexivity|].
  vm_compute. split; reflexivity.
Qed.






(** C8 (code): [update_currency_rate] checks only that the currency is
    known, so an update sets the USD rate to 2; [remove_currency] guards
    USD and USDT, and [fetch_exchange_rates] pins them to 1. *)
Lemma update_usd_rate_cex :
  Exchange.rates
    (Exchange.run_exchange [Exchange.UpdateCurrencyRate "USD" (Dec 2 0)] Exchange.initial)
    !! "USD" = Some (Dec 2 0).
Proof. vm_compute. reflexivity. Qed.

(** C9 (code): [check_user_balance] calls [trigger_alert] with no
    cooldown test, so two low-balance checks one second apart emit two
    alerts one second apart. *)
Lemma low_balance_alerts_unspaced_cex :
  let m := Monitoring.run_monitor
             [(100, Monitoring.CheckUserBalance "alice" (Dec 5 0));
              (101, Monitoring.CheckUserBalance "alice" (Dec 5 0))] Monitoring.initial in
  map fst (Monitoring.alerts m) = [100; 101]
  /\ Monitoring.spaced 3600 (Monitoring.alerts m) = false.
Proof. vm_compute. split; reflexivity. Qed.

(** C10: a Charge, Reserve or GetBalance request with an empty user id
    is the same request for the user id "anonymous", which the validator
    accepts; AdjustBalance does not substitute and rejects the empty
    user id. *)
Theorem empty_user_id_is_anonymous :
  (forall ctx model tokens cost w,
     Charge ctx (ChargeReq "" model tokens cost) w
     = Charge ctx (ChargeReq "anonymous" model tokens cost) w)
  /\ (forall ctx request_id model endpoint input_tokens output_tokens w,
        Reserve ctx (ReserveReq "" request_id model endpoint input_tokens output_tokens) w
        = Reserve ctx (ReserveReq "anonymous" request_id model endpoint input_tokens
                         output_tokens) w)
  /\ (forall w, GetBalance (BalanceReq "") w = GetBalance (BalanceReq "anonymous") w)
  /\ user_id_ok "anonymous" = true
  /\ (forall amount_usd reason w,
        AdjustBalance (AdjustReq "" amount_usd reason) w = (Err ValidationError, w)).
Proof.
  split; [intros; reflexivity|].
  split; [intros; reflexivity|].
  split; [intros; reflexivity|].
  split; [reflexivity|].
  intros; reflexivity.
Qed.

(** X2: [log_transaction] takes the lock and calls [check_alerts], which
    waits for the same non-reentrant lock: from a free lock the call never
    returns and the lock stays held. Called on its own, [check_alerts]
    raises, as [self.alert_cooldown] does not exist. *)
Theorem log_transaction_blocks (tx_type : string) (amount : option dec) (success : bool)
    (t : Z) (m : Monitoring.monitor) :
  Monitoring.lock_held m = false ->
  (exists m', Monitoring.log_transaction tx_type amount success t m = Monitoring.Blocked m'
              /\ Monitoring.lock_held m' = true)
  /\ Monitoring.check_alerts t m = Monitoring.Raised InternalError m.
Proof.
  intros Hfree. unfold Monitoring.log_transaction, Monitoring.check_alerts.
  rewrite Hfree. cbn [Monitoring.lock_held]. split; [eexists; split; reflexivity|reflexivity].
Qed.

(** A charge logged by a fresh process at time 100. *)
Lemma log_transaction_blocks_witness :
  (exists m', Monitoring.log_transaction "charge" (Some (Dec 1 0)) true 100 Monitoring.initial
              = Monitoring.Blocked m' /\ Monitoring.lock_held m' = true)
  /\ Monitoring.check_alerts 100 Monitoring.initial = Monitoring.Raised InternalError Monitoring.initial.
Proof. apply log_transaction_blocks. reflexivity. Defined.

(** X4: a request whose metadata carries no authorization token, an
    empty one, or one that [jwt.decode] rejects, is refused by Charge,
    Reserve and Commit with AuthenticationError before any Redis call:
    the state is unchanged. *)
Theorem unauthenticated_requests_refused (ctx : context) (w : world) :
  (forall t, find_authorization (metadata ctx) = Some t -> t = "" \/ jwt_ok w t = false) ->
  (forall rq, Charge ctx rq w = (Err AuthenticationError, w))
  /\ (forall rq, Reserve ctx rq w = (Err AuthenticationError, w))
  /\ (forall rq, Commit ctx rq w = (Err AuthenticationError, w)).
Proof. exact (LedgerEffects.unauthenticated_refused ctx w). Qed.

(** A request carrying a forged token. *)
Lemma unauthenticated_requests_refused_witness :
  let ctx := Ctx [("authorization", "forged")] in
  let w := deployment (alice_with (Dec 5 0)) [] in
  (forall rq, Charge ctx rq w = (Err AuthenticationError, w))
  /\ (forall rq, Reserve ctx rq w = (Err AuthenticationError, w))
  /\ (forall rq, Commit ctx rq w = (Err AuthenticationError, w)).
Proof.
  intros ctx w. apply (unauthenticated_requests_refused ctx w).
  intros t Ht. vm_compute in Ht. injection Ht as <-. right. vm_compute. reflexivity.
Defined.



(** X12: validate_amount accepts an amount exactly when its value lies
    strictly between 0 and 1000000, whatever its exponent. *)
Theorem validate_amount_by_value (a : dec) :
  amount_ok a = true <-> (0 < to_Q a /\ to_Q a < inject_Z 1000000)%Q.
Proof. exact (HttpFacts.amount_ok_Q a). Qed.

(** X13: a verified checkout.session.completed event that the webhook
    handles without error names a valid user; it adds
    Decimal(amount_total) / 100 to the stored balance (the exact value
    amount_total / 100 when amount_total has at most 28 digits), appends
    one "stripe" deposit, and leaves reservations, the billing log,
    adjustments and usage alone. *)
Theorem webhook_credit_effects (ev : Http.event) (u : string) (w : world)
    (ds : list Http.deposit) r w' ds' :
  Http.ev_type ev = "checkout.session.completed" -> Http.ev_user_id ev = Some u ->
  Http.stripe_webhook (Ok ev) (w, ds) = (Ok r, (w', ds')) ->
  let a := Http.div_100 (Http.ev_amount_total ev) in
  user_id_ok u = true
  /\ balances w' = <[balance_key u := add (default zero (balances w !! balance_key u)) a]> (balances w)
  /\ ds' = ds ++ [Http.Deposit u (float_str w a) "stripe" (now w)]
  /\ reservations w' = reservations w /\ billing_log w' = billing_log w
  /\ adjustments w' = adjustments w /\ usage w' = usage w
  /\ (Z.abs (Http.ev_amount_total ev) < 10 ^ PREC ->
      (to_Q a == inject_Z (Http.ev_amount_total ev) / inject_Z 100)%Q).
Proof.
  intros Ht Hu H a.
  destruct (WebhookFacts.stripe_webhook_ok ev u w ds r w' ds' Ht Hu H)
    as (H1 & H2 & H3 & H4 & H5 & H6 & H7).
  repeat (split; [assumption|]).
  exact (HttpFacts.div_100_value (Http.ev_amount_total ev)).
Qed.

(** A payment of 1050 cents for Alice, who holds 5 USD. *)
Lemma webhook_credit_effects_witness :
  let ev := Http.Event "checkout.session.completed" (Some "alice") 1050 in
  let w := deployment (alice_with (Dec 5 0)) [] in
  let s := snd (Http.stripe_webhook (Ok ev) (w, [])) in
  let a := Http.div_100 (Http.ev_amount_total ev) in
  user_id_ok "alice" = true
  /\ balances (fst s) = <[balance_key "alice" := add (default zero (balances w !! balance_key "alice")) a]> (balances w)
  /\ snd s = [] ++ [Http.Deposit "alice" (float_str w a) "stripe" (now w)]
  /\ reservations (fst s) = reservations w /\ billing_log (fst s) = billing_log w
  /\ adjustments (fst s) = adjustments w /\ usage (fst s) = usage w
  /\ (Z.abs (Http.ev_amount_total ev) < 10 ^ PREC ->
      (to_Q a == inject_Z (Http.ev_amount_total ev) / inject_Z 100)%Q).
Proof.
  intros ev w s a.
  apply (webhook_credit_effects ev "alice" w [] tt (fst s) (snd s)).
  - reflexivity.
  - reflexivity.
  - vm_compute. reflexivity.
Defined.

(** X14: when the webhook fails it appends no deposit and leaves
    reservations, the billing log, adjustments and usage alone; the
    balances are unchanged too, except after a Redis error that follows
    the balance write, where the credit stays without its deposit
    entry. *)
Theorem webhook_failure_effects (v : result Http.event) (w : world) (ds : list Http.deposit) e w' ds' :
  Http.stripe_webhook v (w, ds) = (Err e, (w', ds')) ->
  ds' = ds /\ reservations w' = reservations w /\ billing_log w' = billing_log w
  /\ adjustments w' = adjustments w /\ usage w' = usage w
  /\ (balances w' = balances w
      \/ (e = InternalError /\ exists ev u, v = Ok ev /\ Http.ev_user_id ev = Some u
           /\ balances w' = <[balance_key u := add (default zero (balances w !! balance_key u))
                                                  (Http.div_100 (Http.ev_amount_total ev))]> (balances w))).
Proof. exact (WebhookFacts.stripe_webhook_err v w ds e w' ds'). Qed.

(** A payment for Alice whose deposit write fails (the third Redis
    call). *)
Lemma webhook_failure_effects_witness :
  let v : result Http.event := Ok (Http.Event "checkout.session.completed" (Some "alice") 1050) in
  let w := deployment (alice_with (Dec 5 0)) [false; false; true] in
  let out := Http.stripe_webhook v (w, []) in
  let e := match fst out with Err e => e | Ok _ => ValidationError end in
  let w' := fst (snd out) in
  let ds' := snd (snd out) in
  ds' = [] /\ reservations w' = reservations w /\ billing_log w' = billing_log w
  /\ adjustments w' = adjustments w /\ usage w' = usage w
  /\ (balances w' = balances w
      \/ (e = InternalError /\ exists ev u, v = Ok ev /\ Http.ev_user_id ev = Some u
           /\ balances w' = <[balance_key u := add (default zero (balances w !! balance_key u))
                                                  (Http.div_100 (Http.ev_amount_total ev))]> (balances w))).
Proof.
  intros v w out e w' ds'. apply (webhook_failure_effects v w [] e w' ds').
  vm_compute. reflexivity.
Defined.

(** X15: the webhook keeps no record of the events it has handled: with
    a decoding client and no Redis errors, the same completed event
    delivered twice credits the user twice and appends two identical
    deposits. *)
Theorem webhook_replay_double_credit (ev : Http.event) (u : string) (w : world)
    (ds : list Http.deposit) :
  Http.ev_type ev = "checkout.session.completed" -> Http.ev_user_id ev = Some u ->
  user_id_ok u = true -> decode_responses w = true -> faults w = [] ->
  let a := Http.div_100 (Http.ev_amount_total ev) in
  let old := default zero (balances w !! balance_key u) in
  let dep := Http.Deposit u (float_str w a) "stripe" (now w) in
  exists w1 w2,
    Http.stripe_webhook (Ok ev) (w, ds) = (Ok tt, (w1, ds ++ [dep]))
    /\ Http.stripe_webhook (Ok ev) (w1, ds ++ [dep]) = (Ok tt, (w2, ds ++ [dep; dep]))
    /\ balances w2 !! balance_key u = Some (add (add old a) a).
Proof. exact (WebhookFacts.stripe_webhook_replay ev u w ds). Qed.

(** A payment of 1050 cents for Alice delivered twice. *)
Lemma webhook_replay_double_credit_witness :
  let ev := Http.Event "checkout.session.completed" (Some "alice") 1050 in
  let w := deployment (alice_with (Dec 5 0)) [] in
  let a := Http.div_100 (Http.ev_amount_total ev) in
  let old := default zero (balances w !! balance_key "alice") in
  let dep := Http.Deposit "alice" (float_str w a) "stripe" (now w) in
  exists w1 w2,
    Http.stripe_webhook (Ok ev) (w, []) = (Ok tt, (w1, [] ++ [dep]))
    /\ Http.stripe_webhook (Ok ev) (w1, [] ++ [dep]) = (Ok tt, (w2, [] ++ [dep; dep]))
    /\ balances w2 !! balance_key "alice" = Some (add (add old a) a).
Proof.
  intros ev w a old dep.
  apply (webhook_replay_double_credit ev "alice" w []); vm_compute; reflexivity.
Defined.

(** X16: with a client that does not decode responses (redis-py's
    default, as [server.py] builds it), a completed payment for a user
    who already has a stored balance fails with an internal error
    before any write: the bytes value makes [Decimal] raise. *)
Theorem webhook_undecoded_balance_rejected (ev : Http.event) (u : string) (w : world)
    (ds : list Http.deposit) (v : dec) :
  Http.ev_type ev = "checkout.session.completed" -> Http.ev_user_id ev = Some u ->
  user_id_ok u = true -> decode_responses w = false -> balances w !! balance_key u = Some v ->
  exists w', Http.stripe_webhook (Ok ev) (w, ds) = (Err InternalError, (w', ds))
    /\ balances w' = balances w.
Proof. exact (WebhookFacts.stripe_webhook_undecoded ev u w ds v). Qed.

(** A payment for Alice, who holds 5 USD, read through a bytes client. *)
Lemma webhook_undecoded_balance_rejected_witness :
  let ev := Http.Event "checkout.session.completed" (Some "alice") 1050 in
  let w := World (alice_with (Dec 5 0)) ∅ [] [] ∅ DEFAULT_PRICING Exchange.EXCHANGE_RATES
             1700000000 "2023-11-14" [] (fun t => String.eqb t "valid-token") false
             (fun x => x) [] in
  exists w', Http.stripe_webhook (Ok ev) (w, []) = (Err InternalError, (w', []))
    /\ balances w' = balances w.
Proof.
  intros ev w. apply (webhook_undecoded_balance_rejected ev "alice" w [] (Dec 5 0));
    vm_compute; reflexivity.
Defined.

(** X17: the webhook keeps every stored balance non-negative, whatever
    its outcome, when the event's amount_total is non-negative. *)
Theorem webhook_keeps_balances_nonneg (v : result Http.event) (w : world) (ds : list Http.deposit) :
  nonneg_balances w -> (forall ev, v = Ok ev -> 0 <= Http.ev_amount_total ev) ->
  nonneg_balances (fst (snd (Http.stripe_webhook v (w, ds)))).
Proof. exact (WebhookFacts.stripe_webhook_nonneg v w ds). Qed.

(** A payment of 1050 cents for Alice, who holds 5 USD. *)
Lemma webhook_keeps_balances_nonneg_witness :
  let v : result Http.event := Ok (Http.Event "checkout.session.completed" (Some "alice") 1050) in
  let w := deployment (alice_with (Dec 5 0)) [] in
  nonneg_balances (fst (snd (Http.stripe_webhook v (w, [])))).
Proof.
  intros v w. apply (webhook_keeps_balances_nonneg v w []).
  - unfold nonneg_balances, w, deployment, alice_with. cbn [balances].
    apply map_Forall_singleton. cbn. lia.
  - intros ev Hv. injection Hv as <-. cbn. lia.
Defined.

(** X18: for an accepted amount with at most 28 digits once scaled by
    100, create_checkout asks Stripe for int(amount * 100) cents: the
    largest whole number of cents not above the amount, so the amount
    the webhook later credits (cents / 100) is at most the amount asked
    for and less than a cent below it. *)
Theorem checkout_unit_amount_cents (u : string) (a : dec) (n : Z) :
  Http.create_checkout u a = Ok n -> Z.abs (coef a) * 100 < 10 ^ PREC ->
  (inject_Z n <= to_Q a * inject_Z 100 /\ to_Q a * inject_Z 100 < inject_Z n + 1)%Q
  /\ (to_Q (Http.div_100 n) <= to_Q a /\ to_Q a < to_Q (Http.div_100 n) + (1 # 100))%Q.
Proof. exact (HttpFacts.create_checkout_floor u a n). Qed.

(** A checkout for 10.005 USD asks for 1000 cents. *)
Lemma checkout_unit_amount_cents_witness :
  (inject_Z 1000 <= to_Q (Dec 10005 (-3)) * inject_Z 100
   /\ to_Q (Dec 10005 (-3)) * inject_Z 100 < inject_Z 1000 + 1)%Q
  /\ (to_Q (Http.div_100 1000) <= to_Q (Dec 10005 (-3))
      /\ to_Q (Dec 10005 (-3)) < to_Q (Http.div_100 1000) + (1 # 100))%Q.
Proof.
  apply (checkout_unit_amount_cents "alice" (Dec 10005 (-3)) 1000).
  - vm_compute. reflexivity.
  - vm_compute. reflexivity.
Defined.
